(** * Bitswap want manager ([exchange/bitswap/wantmanager.go])

    A shallow embedding of the want-list coordinator ([WantManager]) and of
    the per-peer send pipeline ([msgQueue]), with the properties of the
    design document checked against it.

    Conventions.
    - Go's [int] is a 64-bit two's complement integer: it is a [Z] kept in
      range by [wrap], written at every [++], [--] and subtraction of the
      source.
    - Go maps ([peers], the want lists, a message's entries) are [gmap]s;
      a [range] over a map whose iterations are independent of each other is
      a map over the values.
    - Channels are their buffers; a closed [done] channel and a cancelled
      context are booleans; a [select] picks one of its ready cases.
    - Everything the code does to the outside world (log lines, calls of the
      network, the completion callback, the histogram) is appended to a
      trace; what the network answers is read from an oracle [Env]. *)

From stdpp Require Import gmap strings list fin_maps.
From Stdlib Require Import ZArith Lia.

#[local] Open Scope Z_scope.

(** ** Identifiers and machine integers *)

(** [peer.ID] is a Go string type; a [*cid.Cid] is used through its
    [KeyString()]. *)
Definition peerID := string.
Definition Cid := string.

Definition int_min : Z := - 2 ^ 63.
Definition int_max : Z := 2 ^ 63 - 1.

(** Two's complement wrap-around of Go's [int]. *)
Definition wrap (z : Z) : Z := (z + 2 ^ 63) mod 2 ^ 64 - 2 ^ 63.

Definition in_int (z : Z) : Prop := int_min <= z <= int_max.

(** ** Want lists (package [wantlist]) *)

(** [wantlist.Entry]; the three fields are the ones [addEntries] fills in. *)
Record Entry := mkEntry {
  e_Cid : Cid;
  Priority : Z;
  RefCnt : Z;
}.

(** Both [*wantlist.ThreadSafe] (the process-wide list) and
    [*wantlist.Wantlist] (a peer's mirror): a Go [map[string]*Entry] keyed by
    the entry's own id. *)
Abbreviation Wantlist := (gmap Cid Entry).

(** The reference count of an id, 0 when it is absent. *)
Definition wl_refcnt (w : Wantlist) (c : Cid) : Z :=
  match w !! c with
  | Some e => RefCnt e
  | None => 0
  end.

(** Modelled from the spec: [Wantlist.Remove] is not in the source file.
    "Remove decrements/deletes (returns whether the id became fully
    inactive)". *)
Definition wl_Remove (c : Cid) (w : Wantlist) : Wantlist * bool :=
  match w !! c with
  | Some ex =>
      if RefCnt ex - 1 <=? 0
      then (delete c w, true)
      else (<[c := mkEntry (e_Cid ex) (Priority ex) (RefCnt ex - 1)]> w, false)
  | None => (w, false)
  end.

(** Modelled from the spec: [Wantlist.Entries] is not in the source file.
    "Entries yields a point-in-time snapshot sequence". *)
Definition wl_Entries (w : Wantlist) : list Entry :=
  (map_to_list w).*2.

(** ** Messages (package [message]) *)

(** Modelled from the spec: a block is a payload with its id; [RawData] is
    the accessor that [SendBlock] measures. *)
Record Block := mkBlock {
  b_Cid : Cid;
  RawData : list Byte.byte;
}.

(** Modelled from the spec: what a message says about one id, "an add for
    that id+priority" or "a cancel for that id". *)
Inductive MsgOp :=
| OpWant (priority : Z)
| OpCancel.

(** Modelled from the spec: [bsmsg.BitSwapMessage] is not in the source file.
    A message is "constructed as full (complete want-list snapshot) or
    incremental" and holds at most one operation per id, and blocks. *)
Record BitSwapMessage := mkMessage {
  Full : bool;
  m_wantlist : gmap Cid MsgOp;
  m_blocks : list Block;
}.

(** Modelled from the spec: [bsmsg.New(full)]. *)
Definition msg_New (full : bool) : BitSwapMessage := mkMessage full ∅ [].

(** Modelled from the spec: [AddEntry(id, priority)], "append/update an add
    for that id+priority". *)
Definition msg_AddEntry (c : Cid) (priority : Z) (m : BitSwapMessage) : BitSwapMessage :=
  mkMessage (Full m) (<[c := OpWant priority]> (m_wantlist m)) (m_blocks m).

(** Modelled from the spec: [Cancel(id)], "append a cancel for that id". *)
Definition msg_Cancel (c : Cid) (m : BitSwapMessage) : BitSwapMessage :=
  mkMessage (Full m) (<[c := OpCancel]> (m_wantlist m)) (m_blocks m).

(** Modelled from the spec: [AddBlock(block)]. *)
Definition msg_AddBlock (b : Block) (m : BitSwapMessage) : BitSwapMessage :=
  mkMessage (Full m) (m_wantlist m) (b :: m_blocks m).

(** Modelled from the spec: [Empty()], no entry and no block. *)
Definition msg_Empty (m : BitSwapMessage) : bool :=
  (size (m_wantlist m) =? 0)%nat && (length (m_blocks m) =? 0)%nat.

(** [bsmsg.Entry]: a want-list entry and whether it is a cancel. *)
Record bsmsgEntry := mkMsgEntry {
  Cancel : bool;
  EntryOf : Entry;
}.

(** ** The outside world *)

(** A Go [error] value. *)
Definition error := string.

Inductive Level := Info | Warning | Error.

(** What the code does that others can see, newest first. *)
Inductive Event :=
| Log (lvl : Level) (format : string)
| NetConnectTo (p : peerID)
| NetNewMessageSender (p : peerID)
| NetSendMsg (s : nat) (m : BitSwapMessage)
| NetClose (s : nat)
| NetSendMessage (p : peerID) (m : BitSwapMessage)
| Observe (bytes : Z)
| CallSent (cb : nat)
| GoRunQueue (p : peerID)
| PeersReply (ps : list peerID).

Abbreviation Trace := (list Event).

(** Which case of the [select] that follows a failed [SendMsg] fires. *)
Inductive Wait := WDone | WCtx | WTimer.

(** The answers of [bsnet.BitSwapNetwork] and of its senders ([None] is a nil
    error). The [k]-th call of a method gets the answer at [k]; the wait
    after the [k]-th [SendMsg] ends as [afterSendError k] says. *)
Record Env := mkEnv {
  ConnectTo : nat -> option error;
  NewMessageSender : nat -> option error;
  SendMsg : nat -> option error;
  SendMessage : nat -> option error;
  afterSendError : nat -> Wait;
}.

Definition is_ConnectTo (ev : Event) : bool :=
  match ev with NetConnectTo _ => true | _ => false end.
Definition is_NewMessageSender (ev : Event) : bool :=
  match ev with NetNewMessageSender _ => true | _ => false end.
Definition is_SendMsg (ev : Event) : bool :=
  match ev with NetSendMsg _ _ => true | _ => false end.
Definition is_SendMessage (ev : Event) : bool :=
  match ev with NetSendMessage _ _ => true | _ => false end.
Definition is_Log (ev : Event) : bool :=
  match ev with Log _ _ => true | _ => false end.

(** How many events of a kind a trace holds. *)
Definition calls (kind : Event -> bool) (tr : Trace) : nat :=
  length (List.filter kind tr).

(** The messages handed to [SendMsg], newest first. *)
Fixpoint sent_msgs (tr : Trace) : list BitSwapMessage :=
  match tr with
  | [] => []
  | NetSendMsg _ m :: tr' => m :: sent_msgs tr'
  | _ :: tr' => sent_msgs tr'
  end.

(** How often the completion callback [cb] was invoked. *)
Fixpoint sent_calls (cb : nat) (tr : Trace) : nat :=
  match tr with
  | [] => O
  | CallSent cb' :: tr' => (if Nat.eqb cb cb' then 1 else 0) + sent_calls cb tr'
  | _ :: tr' => sent_calls cb tr'
  end.

(** How a piece of code ends: it returns, it cannot go on in this state (no
    case of its [select] is ready, or the chosen one is not), it
    dereferences nil, or the model ran out of fuel. *)
Inductive Outcome (A : Type) :=
| Returned (a : A)
| Blocked
| Panicked
| OutOfFuel.
Arguments Returned {A} a.
Arguments Blocked {A}.
Arguments Panicked {A}.
Arguments OutOfFuel {A}.

(** ** Peer send queues *)

(** [msgQueue]. [mq_work] is the buffer of the channel [work] (capacity 1),
    [mq_done] says whether the channel [done] is closed, [mq_sender] names
    the open sender, [mq_exited] says whether [runQueue] has returned. The
    lock [outlk] guards [out] for the length of one function of this
    model. *)
Record msgQueue := mkMsgQueue {
  mq_p : peerID;
  mq_out : option BitSwapMessage;
  mq_wl : Wantlist;
  mq_sender : option nat;
  mq_refcnt : Z;
  mq_work : bool;
  mq_done : bool;
  mq_exited : bool;
}.

Definition set_out (o : option BitSwapMessage) (mq : msgQueue) : msgQueue :=
  mkMsgQueue (mq_p mq) o (mq_wl mq) (mq_sender mq) (mq_refcnt mq) (mq_work mq)
             (mq_done mq) (mq_exited mq).
Definition set_wl (w : Wantlist) (mq : msgQueue) : msgQueue :=
  mkMsgQueue (mq_p mq) (mq_out mq) w (mq_sender mq) (mq_refcnt mq) (mq_work mq)
             (mq_done mq) (mq_exited mq).
Definition set_sender (s : option nat) (mq : msgQueue) : msgQueue :=
  mkMsgQueue (mq_p mq) (mq_out mq) (mq_wl mq) s (mq_refcnt mq) (mq_work mq)
             (mq_done mq) (mq_exited mq).
Definition set_refcnt (r : Z) (mq : msgQueue) : msgQueue :=
  mkMsgQueue (mq_p mq) (mq_out mq) (mq_wl mq) (mq_sender mq) r (mq_work mq)
             (mq_done mq) (mq_exited mq).
Definition set_work (b : bool) (mq : msgQueue) : msgQueue :=
  mkMsgQueue (mq_p mq) (mq_out mq) (mq_wl mq) (mq_sender mq) (mq_refcnt mq) b
             (mq_done mq) (mq_exited mq).
Definition set_done (b : bool) (mq : msgQueue) : msgQueue :=
  mkMsgQueue (mq_p mq) (mq_out mq) (mq_wl mq) (mq_sender mq) (mq_refcnt mq) (mq_work mq)
             b (mq_exited mq).
Definition set_exited (b : bool) (mq : msgQueue) : msgQueue :=
  mkMsgQueue (mq_p mq) (mq_out mq) (mq_wl mq) (mq_sender mq) (mq_refcnt mq) (mq_work mq)
             (mq_done mq) b.

(** [newMsgQueue]. *)
Definition newMsgQueue (p : peerID) : msgQueue :=
  mkMsgQueue p None ∅ None 1 false false false.

(** ** Sample parameters *)

(** A merge rule: keep the priority held. *)
Definition keepFirst (held added : Z) : Z := held.

(** A network on which every call succeeds. *)
Definition okEnv : Env :=
  mkEnv (fun _ => None) (fun _ => None) (fun _ => None) (fun _ => None) (fun _ => WTimer).


(** A network on which [SendMsg] and the one-shot [SendMessage] always fail
    and no sender can be opened. *)
Definition deadEnv : Env :=
  mkEnv (fun _ => Some "dial failed") (fun _ => None)
        (fun _ => Some "stream reset") (fun _ => Some "stream reset") (fun _ => WTimer).

Section Bitswap.

(** The rule that merges the priorities of two wants of one id is left
    open by the design document: it is a parameter of the model, from the
    priority held and the one added to the one kept. *)
Variable mergePriority : Z -> Z -> Z.

(** The constant [kMaxPriority] is declared in another file of the
    package. *)
Variable kMaxPriority : Z.

(** The network the coordinator was built with. *)
Variable env : Env.

(** Modelled from the spec: [Wantlist.AddEntry] is not in the source file.
    "Add merges a want (increments/creates; returns whether the id
    transitioned from absent/zero-refcount to active)". *)
Definition wl_AddEntry (e : Entry) (w : Wantlist) : Wantlist * bool :=
  match w !! e_Cid e with
  | Some ex =>
      (<[e_Cid e := mkEntry (e_Cid ex)
                            (mergePriority (Priority ex) (Priority e))
                            (RefCnt ex + 1)]> w,
       RefCnt ex <=? 0)
  | None => (<[e_Cid e := e]> w, true)
  end.

(** Modelled from the spec: [Wantlist.Add] is not in the source file; it
    is the same merge, of a want that counts for one reference. *)
Definition wl_Add (c : Cid) (priority : Z) (w : Wantlist) : Wantlist * bool :=
  wl_AddEntry (mkEntry c priority 1) w.

(** *** [msgQueue.addMessage] *)

(** One turn of the loop over [entries]: the mirror, the message held and
    the flag [work]. *)
Definition addMessage_entry (st : Wantlist * BitSwapMessage * bool) (e : bsmsgEntry)
  : Wantlist * BitSwapMessage * bool :=
  let '(w, out, work) := st in
  if Cancel e then
    let '(w', changed) := wl_Remove (e_Cid (EntryOf e)) w in
    if changed then (w', msg_Cancel (e_Cid (EntryOf e)) out, true)
    else (w', out, work)
  else
    let '(w', changed) := wl_Add (e_Cid (EntryOf e)) (Priority (EntryOf e)) w in
    if changed
    then (w', msg_AddEntry (e_Cid (EntryOf e)) (Priority (EntryOf e)) out, true)
    else (w', out, work).

Definition addMessage (entries : list bsmsgEntry) (mq : msgQueue) : msgQueue :=
  (* if we have no message held allocate a new one *)
  let out0 := match mq_out mq with
              | None => msg_New false
              | Some m => m
              end in
  let '(w, out, work) := foldl addMessage_entry (mq_wl mq, out0, false) entries in
  (* deferred: a send on [work] that does not block *)
  mkMsgQueue (mq_p mq) (Some out) w (mq_sender mq) (mq_refcnt mq)
             (if work then true else mq_work mq) (mq_done mq) (mq_exited mq).

(** *** [msgQueue.openSender] *)

Definition openSender (mq : msgQueue) (tr : Trace) : option error * msgQueue * Trace :=
  let tr1 := NetConnectTo (mq_p mq) :: tr in
  match ConnectTo env (calls is_ConnectTo tr) with
  | Some err => (Some err, mq, tr1)
  | None =>
      let tr2 := NetNewMessageSender (mq_p mq) :: tr1 in
      match NewMessageSender env (calls is_NewMessageSender tr1) with
      | Some err => (Some err, mq, tr2)
      | None =>
          (None, set_sender (Some (calls is_NewMessageSender tr1)) mq, tr2)
      end
  end.

(** *** [msgQueue.doWork] *)

(** The [for] loop that sends [wlm]; every turn makes one call of
    [SendMsg]. *)
Fixpoint doWork_send (fuel : nat) (wlm : BitSwapMessage) (mq : msgQueue) (tr : Trace)
  : Outcome (msgQueue * Trace) :=
  match fuel with
  | O => OutOfFuel
  | S fuel' =>
      match mq_sender mq with
      | None => Panicked
      | Some s =>
          let k := calls is_SendMsg tr in
          let tr1 := NetSendMsg s wlm :: tr in
          match SendMsg env k with
          | None => Returned (mq, tr1)
          | Some err =>
              let tr2 := NetClose s :: Log Info "bitswap send error: %s" :: tr1 in
              let mq1 := set_sender None mq in
              match (if mq_done mq1 then WDone else afterSendError env k) with
              | WDone => Returned (mq1, tr2)
              | WCtx => Returned (mq1, tr2)
              | WTimer =>
                  let tr3 :=
                    Log Warning
                      "SendMsg errored but neither 'done' nor context.Done() were set"
                    :: tr2 in
                  match openSender mq1 tr3 with
                  | (Some err', mq2, tr4) =>
                      Returned
                        (mq2,
                         Log Error "couldnt open sender again after SendMsg(%s) failed: %s"
                         :: tr4)
                  | (None, mq2, tr4) => doWork_send fuel' wlm mq2 tr4
                  end
              end
          end
      end
  end.

(** The first statement of [doWork]: open a sender when there is none. *)
Definition doWork_open (mq : msgQueue) (tr : Trace) : option error * msgQueue * Trace :=
  match mq_sender mq with
  | None => openSender mq tr
  | Some _ => (None, mq, tr)
  end.

Definition doWork (fuel : nat) (mq : msgQueue) (tr : Trace) : Outcome (msgQueue * Trace) :=
  match doWork_open mq tr with
  | (Some err, mq1, tr1) =>
      Returned (mq1, Log Info "cant open message sender to peer %s: %s" :: tr1)
  | (None, mq1, tr1) =>
      (* grab outgoing message *)
      match mq_out mq1 with
      | None => Returned (mq1, tr1)
      | Some wlm =>
          if msg_Empty wlm then Returned (mq1, tr1)
          else doWork_send fuel wlm (set_out None mq1) tr1
      end
  end.

(** *** [msgQueue.runQueue] *)

(** The cases of the [select] of [runQueue]. *)
Inductive QueueCase := QWork | QDone | QCtx.

(** The return of [runQueue], with its deferred function. *)
Definition runQueue_return (mq : msgQueue) (tr : Trace) : msgQueue * Trace :=
  match mq_sender mq with
  | Some s => (set_exited true mq, NetClose s :: tr)
  | None => (set_exited true mq, tr)
  end.

(** One turn of the loop of [runQueue], taking the case [c] of its
    [select]; [ctxdone] says whether the context is cancelled. *)
Definition runQueue_iter (fuel : nat) (ctxdone : bool) (c : QueueCase)
    (mq : msgQueue) (tr : Trace) : Outcome (msgQueue * Trace) :=
  if mq_exited mq then Blocked else
  match c with
  | QWork => if mq_work mq then doWork fuel (set_work false mq) tr else Blocked
  | QDone => if mq_done mq then Returned (runQueue_return mq tr) else Blocked
  | QCtx => if ctxdone then Returned (runQueue_return mq tr) else Blocked
  end.

(** ** The coordinator *)

(** [wantSet]. *)
Record wantSet := mkWantSet {
  entries : list bsmsgEntry;
  targets : list peerID;
}.

(** [WantManager]. The channels [incoming], [connect] and [disconnect] are
    their buffers (capacity 10, oldest first); [peerReqs] has no buffer and
    is the meeting of [ConnectedPeers] with the loop. [ctx_done] says
    whether [pm.ctx] is cancelled, [run_returned] whether [Run] has
    returned, [wantlistGauge] is the value of the gauge (a count, moved by
    [Inc] and [Dec]). A queue that [stopPeerHandler] has taken out of [peers] is
    from then on referenced by its own pipeline only: it is kept in
    [retired]. *)
Record WantManager := mkWantManager {
  incoming : list wantSet;
  connect : list peerID;
  disconnect : list peerID;
  peers : gmap peerID msgQueue;
  wl : Wantlist;
  ctx_done : bool;
  wantlistGauge : Z;
  run_returned : bool;
  retired : list msgQueue;
}.

Definition set_incoming (x : list wantSet) (pm : WantManager) : WantManager :=
  mkWantManager x (connect pm) (disconnect pm) (peers pm) (wl pm) (ctx_done pm)
                (wantlistGauge pm) (run_returned pm) (retired pm).
Definition set_connect (x : list peerID) (pm : WantManager) : WantManager :=
  mkWantManager (incoming pm) x (disconnect pm) (peers pm) (wl pm) (ctx_done pm)
                (wantlistGauge pm) (run_returned pm) (retired pm).
Definition set_disconnect (x : list peerID) (pm : WantManager) : WantManager :=
  mkWantManager (incoming pm) (connect pm) x (peers pm) (wl pm) (ctx_done pm)
                (wantlistGauge pm) (run_returned pm) (retired pm).
Definition set_peers (x : gmap peerID msgQueue) (pm : WantManager) : WantManager :=
  mkWantManager (incoming pm) (connect pm) (disconnect pm) x (wl pm) (ctx_done pm)
                (wantlistGauge pm) (run_returned pm) (retired pm).
Definition set_wl_gauge (x : Wantlist * Z) (pm : WantManager) : WantManager :=
  mkWantManager (incoming pm) (connect pm) (disconnect pm) (peers pm) (fst x) (ctx_done pm)
                (snd x) (run_returned pm) (retired pm).
Definition set_ctx_done (x : bool) (pm : WantManager) : WantManager :=
  mkWantManager (incoming pm) (connect pm) (disconnect pm) (peers pm) (wl pm) x
                (wantlistGauge pm) (run_returned pm) (retired pm).
Definition set_run_returned (x : bool) (pm : WantManager) : WantManager :=
  mkWantManager (incoming pm) (connect pm) (disconnect pm) (peers pm) (wl pm) (ctx_done pm)
                (wantlistGauge pm) x (retired pm).
Definition set_retired (x : list msgQueue) (pm : WantManager) : WantManager :=
  mkWantManager (incoming pm) (connect pm) (disconnect pm) (peers pm) (wl pm) (ctx_done pm)
                (wantlistGauge pm) (run_returned pm) x.

(** [NewWantManager]. *)
Definition NewWantManager : WantManager :=
  mkWantManager [] [] [] ∅ ∅ false 0 false [].

(** The capacity of [incoming], [connect] and [disconnect]. *)
Definition chan_cap : nat := 10.

(** A caller's context: [context.Background()] is never done. *)
Inductive Context :=
| Background
| Cancellable (done : bool).

Definition ctx_Done (ctx : Context) : bool :=
  match ctx with
  | Background => false
  | Cancellable d => d
  end.

(** *** [addEntries], [WantBlocks], [CancelWants] *)

(** The loop of [addEntries] from index [i] on. *)
Fixpoint addEntries_loop (cancel : bool) (i : Z) (ks : list Cid) : list bsmsgEntry :=
  match ks with
  | [] => []
  | k :: ks' =>
      mkMsgEntry cancel (mkEntry k (wrap (kMaxPriority - i)) 1)
      :: addEntries_loop cancel (i + 1) ks'
  end.

(** The cases of the [select] of [addEntries]. *)
Inductive SubmitCase := SendIncoming | PmDone | CallerDone.

Definition addEntries (ctx : Context) (ks : list Cid) (cancel : bool)
    (c : SubmitCase) (pm : WantManager) : Outcome WantManager :=
  let ws := mkWantSet (addEntries_loop cancel 0 ks) [] in
  match c with
  | SendIncoming =>
      if (length (incoming pm) <? chan_cap)%nat
      then Returned (set_incoming (incoming pm ++ [ws]) pm)
      else Blocked
  | PmDone => if ctx_done pm then Returned pm else Blocked
  | CallerDone => if ctx_Done ctx then Returned pm else Blocked
  end.

Definition WantBlocks (ctx : Context) (ks : list Cid) (c : SubmitCase)
    (pm : WantManager) (tr : Trace) : Outcome (WantManager * Trace) :=
  let tr1 := Log Info "want blocks: %s" :: tr in
  match addEntries ctx ks false c pm with
  | Returned pm' => Returned (pm', tr1)
  | Blocked => Blocked
  | Panicked => Panicked
  | OutOfFuel => OutOfFuel
  end.

Definition CancelWants (ks : list Cid) (c : SubmitCase)
    (pm : WantManager) (tr : Trace) : Outcome (WantManager * Trace) :=
  match addEntries Background ks true c pm with
  | Returned pm' => Returned (pm', tr)
  | Blocked => Blocked
  | Panicked => Panicked
  | OutOfFuel => OutOfFuel
  end.

(** *** [Connected], [Disconnected], [ConnectedPeers] *)

(** The cases of the [select] of [Connected] and [Disconnected]. *)
Inductive NotifyCase := SendNotify | NotifyPmDone.

Definition Connected (p : peerID) (c : NotifyCase) (pm : WantManager)
  : Outcome WantManager :=
  match c with
  | SendNotify =>
      if (length (connect pm) <? chan_cap)%nat
      then Returned (set_connect (connect pm ++ [p]) pm)
      else Blocked
  | NotifyPmDone => if ctx_done pm then Returned pm else Blocked
  end.

Definition Disconnected (p : peerID) (c : NotifyCase) (pm : WantManager)
  : Outcome WantManager :=
  match c with
  | SendNotify =>
      if (length (disconnect pm) <? chan_cap)%nat
      then Returned (set_disconnect (disconnect pm ++ [p]) pm)
      else Blocked
  | NotifyPmDone => if ctx_done pm then Returned pm else Blocked
  end.

(** What the loop answers to a request on [peerReqs]. *)
Definition peerReqs_answer (pm : WantManager) : list peerID :=
  (map_to_list (peers pm)).*1.

(** [ConnectedPeers]: a send on [peerReqs], which only the loop of [Run]
    receives from, then a receive of its answer. There is no [select]. *)
Definition ConnectedPeers (pm : WantManager) (tr : Trace)
  : Outcome (list peerID * Trace) :=
  if run_returned pm then Blocked
  else Returned (peerReqs_answer pm, PeersReply (peerReqs_answer pm) :: tr).

(** *** [SendBlock] *)

(** [engine.Envelope]; [Sent] names the completion callback. *)
Record Envelope := mkEnvelope {
  env_Peer : peerID;
  env_Block : Block;
  Sent : nat;
}.

Definition SendBlock (e : Envelope) (tr : Trace) : Trace :=
  let tr1 := Observe (Z.of_nat (length (RawData (env_Block e)))) :: tr in
  let msg := msg_AddBlock (env_Block e) (msg_New false) in
  let tr2 := Log Info "Sending block %s to %s" :: tr1 in
  let tr3 := NetSendMessage (env_Peer e) msg :: tr2 in
  let tr4 := match SendMessage env (calls is_SendMessage tr2) with
             | Some err => Log Info "sendblock error: %s" :: tr3
             | None => tr3
             end in
  (* deferred *)
  CallSent (Sent e) :: tr4.

(** *** [startPeerHandler], [stopPeerHandler] *)

(** One turn of the loop of [startPeerHandler] over the entries of the
    process-wide list: the new mirror and the full want list. *)
Definition startPeerHandler_entry (st : Wantlist * BitSwapMessage) (e : Entry)
  : Wantlist * BitSwapMessage :=
  (fst (wl_AddEntry e (fst st)), msg_AddEntry (e_Cid e) (Priority e) (snd st)).

Definition startPeerHandler (p : peerID) (pm : WantManager) (tr : Trace)
  : WantManager * Trace :=
  match peers pm !! p with
  | Some mq =>
      (set_peers (<[p := set_refcnt (wrap (mq_refcnt mq + 1)) mq]> (peers pm)) pm, tr)
  | None =>
      let mq := newMsgQueue p in
      (* new peer, we will want to give them our full wantlist *)
      let '(mirror, fullwantlist) :=
        foldl startPeerHandler_entry (mq_wl mq, msg_New true) (wl_Entries (wl pm)) in
      let mq1 := set_work true (set_out (Some fullwantlist) (set_wl mirror mq)) in
      (set_peers (<[p := mq1]> (peers pm)) pm, GoRunQueue p :: tr)
  end.

Definition stopPeerHandler (p : peerID) (pm : WantManager) (tr : Trace)
  : WantManager * Trace :=
  match peers pm !! p with
  | None => (pm, tr)
  | Some pq =>
      let pq1 := set_refcnt (wrap (mq_refcnt pq - 1)) pq in
      if 0 <? mq_refcnt pq1
      then (set_peers (<[p := pq1]> (peers pm)) pm, tr)
      else (set_retired (set_done true pq1 :: retired pm)
              (set_peers (delete p (peers pm)) pm), tr)
  end.

(** *** [Run] *)

(** One turn of the loop that adds the changes of a batch to the
    process-wide list: the list and the gauge. *)
Definition Run_apply_entry (st : Wantlist * Z) (e : bsmsgEntry) : Wantlist * Z :=
  let '(w, gauge) := st in
  if Cancel e then
    let '(w', removed) := wl_Remove (e_Cid (EntryOf e)) w in
    (w', if removed then gauge - 1 else gauge)
  else
    let '(w', added) := wl_AddEntry (EntryOf e) w in
    (w', if added then gauge + 1 else gauge).

(** One turn of the loop over the targets of a batch. *)
Definition Run_target (es : list bsmsgEntry) (st : gmap peerID msgQueue * Trace)
    (t : peerID) : gmap peerID msgQueue * Trace :=
  match fst st !! t with
  | None =>
      (fst st, Log Warning "tried sending wantlist change to non-partner peer" :: snd st)
  | Some p => (<[t := addMessage es p]> (fst st), snd st)
  end.

(** The two loops that broadcast the changes of a batch. *)
Definition Run_broadcast (ws : wantSet) (ps : gmap peerID msgQueue) (tr : Trace)
  : gmap peerID msgQueue * Trace :=
  if (length (targets ws) =? 0)%nat
  then (addMessage (entries ws) <$> ps, tr)
  else foldl (Run_target (entries ws)) (ps, tr) (targets ws).

(** The case [ws := <-pm.incoming]. *)
Definition Run_incoming (ws : wantSet) (pm : WantManager) (tr : Trace)
  : WantManager * Trace :=
  let pm1 := set_wl_gauge (foldl Run_apply_entry (wl pm, wantlistGauge pm) (entries ws)) pm in
  let '(ps, tr') := Run_broadcast ws (peers pm1) tr in
  (set_peers ps pm1, tr').

(** The case [<-tock.C]. *)
Definition Run_tick (pm : WantManager) : WantManager :=
  let es := map (mkMsgEntry false) (wl_Entries (wl pm)) in
  set_peers ((fun p => addMessage es (set_out (Some (msg_New true)) p)) <$> peers pm) pm.

(** The cases of the [select] of [Run]. *)
Inductive RunCase := RIncoming | RTick | RConnect | RDisconnect | RPeerReqs | RCtxDone.

(** One turn of the loop of [Run], taking the case [c] of its [select]. *)
Definition Run_iter (c : RunCase) (pm : WantManager) (tr : Trace)
  : Outcome (WantManager * Trace) :=
  if run_returned pm then Blocked else
  match c with
  | RIncoming =>
      match incoming pm with
      | [] => Blocked
      | ws :: rest => Returned (Run_incoming ws (set_incoming rest pm) tr)
      end
  | RTick => Returned (Run_tick pm, tr)
  | RConnect =>
      match connect pm with
      | [] => Blocked
      | p :: rest => Returned (startPeerHandler p (set_connect rest pm) tr)
      end
  | RDisconnect =>
      match disconnect pm with
      | [] => Blocked
      | p :: rest => Returned (stopPeerHandler p (set_disconnect rest pm) tr)
      end
  | RPeerReqs => Returned (pm, PeersReply (peerReqs_answer pm) :: tr)
  | RCtxDone => if ctx_done pm then Returned (set_run_returned true pm, tr) else Blocked
  end.

(** ** The whole system *)

(** What can happen next: a call of one of the public functions by some
    goroutine, the cancellation of [pm.ctx], a turn of [Run], a turn of
    the pipeline of a registered peer or of a retired queue. *)
Inductive Action :=
| AWantBlocks (ctx : Context) (ks : list Cid) (c : SubmitCase)
| ACancelWants (ks : list Cid) (c : SubmitCase)
| AConnected (p : peerID) (c : NotifyCase)
| ADisconnected (p : peerID) (c : NotifyCase)
| AConnectedPeers
| ASendBlock (e : Envelope)
| ACancelCtx
| ARun (c : RunCase)
| APipeline (p : peerID) (c : QueueCase) (fuel : nat)
| ARetired (i : nat) (c : QueueCase) (fuel : nat).

Definition bind {A B : Type} (o : Outcome A) (f : A -> Outcome B) : Outcome B :=
  match o with
  | Returned a => f a
  | Blocked => Blocked
  | Panicked => Panicked
  | OutOfFuel => OutOfFuel
  end.

Definition exec (a : Action) (s : WantManager * Trace) : Outcome (WantManager * Trace) :=
  let '(pm, tr) := s in
  match a with
  | AWantBlocks ctx ks c => WantBlocks ctx ks c pm tr
  | ACancelWants ks c => CancelWants ks c pm tr
  | AConnected p c => bind (Connected p c pm) (fun pm' => Returned (pm', tr))
  | ADisconnected p c => bind (Disconnected p c pm) (fun pm' => Returned (pm', tr))
  | AConnectedPeers => bind (ConnectedPeers pm tr) (fun r => Returned (pm, snd r))
  | ASendBlock e => Returned (pm, SendBlock e tr)
  | ACancelCtx => Returned (set_ctx_done true pm, tr)
  | ARun c => Run_iter c pm tr
  | APipeline p c fuel =>
      match peers pm !! p with
      | None => Blocked
      | Some mq =>
          bind (runQueue_iter fuel (ctx_done pm) c mq tr)
               (fun r => Returned (set_peers (<[p := fst r]> (peers pm)) pm, snd r))
      end
  | ARetired i c fuel =>
      match retired pm !! i with
      | None => Blocked
      | Some mq =>
          bind (runQueue_iter fuel (ctx_done pm) c mq tr)
               (fun r => Returned (set_retired (<[i := fst r]> (retired pm)) pm, snd r))
      end
  end.

Fixpoint execs (acts : list Action) (s : WantManager * Trace)
  : Outcome (WantManager * Trace) :=
  match acts with
  | [] => Returned s
  | a :: acts' => bind (exec a s) (execs acts')
  end.

(** The states the system can be in. *)
Definition reachable (s : WantManager * Trace) : Prop :=
  exists acts, execs acts (NewWantManager, []) = Returned s.

(** The state after the actions [acts], from a new coordinator. *)
Definition state_after (acts : list Action) : WantManager * Trace :=
  match execs acts (NewWantManager, []) with
  | Returned s => s
  | _ => (NewWantManager, [])
  end.

(** ** Vocabulary of the statements *)

(** An operation blocks when no case of its [select] is ready. *)
Definition blocks {C A : Type} (op : C -> Outcome A) : Prop :=
  forall c, op c = Blocked.

(** Every entry of a want list is stored under its own id. *)
Definition wl_keys (w : Wantlist) : Prop :=
  map_Forall (fun k e => e_Cid e = k) w.

(** How often the peer [p] is named in a list of targets. *)
Fixpoint occurrences (p : peerID) (ts : list peerID) : nat :=
  match ts with
  | [] => O
  | t :: ts' => (if bool_decide (t = p) then 1 else 0) + occurrences p ts'
  end.

(** How many of the targets named are not registered. *)
Fixpoint unregistered (ps : gmap peerID msgQueue) (ts : list peerID) : nat :=
  match ts with
  | [] => O
  | t :: ts' =>
      (match ps !! t with None => 1 | Some _ => 0 end) + unregistered ps ts'
  end.


(** The entries of a want list are stored under their own ids and count at
    least one reference. *)
Definition wl_ok (w : Wantlist) : Prop :=
  map_Forall (fun k e => e_Cid e = k /\ 1 <= RefCnt e) w.

(** A batch as [addEntries] builds it: every entry counts for one
    reference. *)
Definition batch_ok (ws : wantSet) : Prop :=
  Forall (fun e => RefCnt (EntryOf e) = 1) (entries ws).

(** The gauge is the size of the process-wide list. *)
Definition gauge_inv (pm : WantManager) : Prop :=
  wl_ok (wl pm)
  /\ wantlistGauge pm = Z.of_nat (size (wl pm))
  /\ Forall batch_ok (incoming pm).




(** [n] connect events for the peer [p], handled one after the other. *)
Definition connects (p : peerID) (n : nat) (s : WantManager * Trace)
  : WantManager * Trace :=
  Nat.iter n (fun s => startPeerHandler p s.1 s.2) s.

(** [n] disconnect events for the peer [p], handled one after the other. *)
Definition disconnects (p : peerID) (n : nat) (s : WantManager * Trace)
  : WantManager * Trace :=
  Nat.iter n (fun s => stopPeerHandler p s.1 s.2) s.

(** Nothing has been applied between the states [pm] and [pm']: the
    process-wide list, the gauge, the registered peers with their mirrors
    and reference counts and the number of retired queues are the same, and
    the channels still hold what they held, in front of what was added. *)
Definition frozen (pm pm' : WantManager) : Prop :=
  wl pm' = wl pm
  /\ wantlistGauge pm' = wantlistGauge pm
  /\ (forall p, mq_wl <$> peers pm' !! p = mq_wl <$> peers pm !! p)
  /\ (forall p, mq_refcnt <$> peers pm' !! p = mq_refcnt <$> peers pm !! p)
  /\ length (retired pm') = length (retired pm)
  /\ incoming pm `prefix_of` incoming pm'
  /\ connect pm `prefix_of` connect pm'
  /\ disconnect pm `prefix_of` disconnect pm'.

(** No channel of the coordinator holds more than its capacity. *)
Definition chans_bounded (pm : WantManager) : Prop :=
  (length (incoming pm) <= chan_cap)%nat
  /\ (length (connect pm) <= chan_cap)%nat
  /\ (length (disconnect pm) <= chan_cap)%nat.

(** The entries of the pending message of a queue, none when its slot is
    nil. *)
Definition out_entries (mq : msgQueue) : gmap Cid MsgOp :=
  match mq_out mq with
  | Some m => m_wantlist m
  | None => ∅
  end.

(** The entries [m] of a message agree with the mirror [w]: a cancel is
    about an id the mirror does not hold, a want about one it holds. *)
Definition pending_ok (w : Wantlist) (m : gmap Cid MsgOp) : Prop :=
  forall c op,
    m !! c = Some op ->
    match op with
    | OpCancel => w !! c = None
    | OpWant _ => is_Some (w !! c)
    end.

(** A registered queue: it is the queue of the peer it is registered for,
    its [done] channel is open, its mirror is well formed and its pending
    message agrees with its mirror. *)
Definition queue_ok (p : peerID) (mq : msgQueue) : Prop :=
  mq_p mq = p
  /\ mq_done mq = false
  /\ wl_ok (mq_wl mq)
  /\ pending_ok (mq_wl mq) (out_entries mq).

(** The registry and the retired queues. *)
Definition peers_inv (pm : WantManager) : Prop :=
  map_Forall queue_ok (peers pm)
  /\ Forall (fun mq => mq_done mq = true) (retired pm).

(** What the entry [e] of a batch makes a message say about its id. *)
Definition op_of (e : bsmsgEntry) : MsgOp :=
  if Cancel e then OpCancel else OpWant (Priority (EntryOf e)).

(** A want as [addEntries] builds it. *)
Definition is_want (e : bsmsgEntry) : Prop :=
  Cancel e = false /\ RefCnt (EntryOf e) = 1.

(** The mirror [m] counts at least as many references as the list [w] for
    every id. *)
Definition mirror_covers (w m : Wantlist) : Prop :=
  forall c, wl_refcnt w c <= wl_refcnt m c.

(** No batch waiting in [incoming] names targets, and every mirror covers
    the process-wide list. *)
Definition sync_inv (pm : WantManager) : Prop :=
  Forall (fun ws => targets ws = []) (incoming pm)
  /\ map_Forall (fun _ mq => mirror_covers (wl pm) (mq_wl mq)) (peers pm).

(** ** Machine integers *)

Lemma wrap_in_int (z : Z) : in_int z -> wrap z = z.
Proof.
  unfold in_int, int_min, int_max, wrap. intros Hz.
  rewrite Z.mod_small; lia.
Qed.

(** ** Priorities of a batch *)

Lemma addEntries_loop_length (cancel : bool) (ks : list Cid) :
  forall i, length (addEntries_loop cancel i ks) = length ks.
Proof.
  induction ks as [|k ks IH]; intros i; simpl; [reflexivity|].
  by rewrite IH.
Qed.

Lemma addEntries_loop_lookup (cancel : bool) (ks : list Cid) :
  forall (i : Z) (n : nat),
    addEntries_loop cancel i ks !! n
    = (fun k => mkMsgEntry cancel (mkEntry k (wrap (kMaxPriority - (i + Z.of_nat n))) 1))
        <$> ks !! n.
Proof.
  induction ks as [|k ks IH]; intros i n; simpl.
  - by rewrite !lookup_nil.
  - destruct n as [|n]; simpl.
    + by rewrite Z.add_0_r.
    + rewrite IH. replace (i + 1 + Z.of_nat n) with (i + Z.of_nat (S n)) by lia.
      reflexivity.
Qed.

(** C8. The batch that [addEntries] hands to the coordinator, for wants
    ([WantBlocks]) and for cancels ([CancelWants]) alike, lists the ids in
    the order given, the first one with the priority [kMaxPriority], and
    the priorities strictly decrease with the position. *)
Theorem addEntries_priorities_decrease
    (ctx : Context) (ks : list Cid) (cancel : bool) (pm pm' : WantManager)
    (Hmax : 0 <= kMaxPriority <= int_max)
    (Hlen : Z.of_nat (length ks) <= int_max)
    (Hsent : addEntries ctx ks cancel SendIncoming pm = Returned pm') :
  exists ws,
    incoming pm' = incoming pm ++ [ws]
    /\ map (fun e => e_Cid (EntryOf e)) (entries ws) = ks
    /\ (forall e, entries ws !! 0%nat = Some e -> Priority (EntryOf e) = kMaxPriority)
    /\ (forall (i j : nat) (ei ej : bsmsgEntry),
          entries ws !! i = Some ei ->
          entries ws !! j = Some ej ->
          (i < j)%nat ->
          Priority (EntryOf ej) < Priority (EntryOf ei)).
Proof.
  unfold addEntries in Hsent.
  destruct (length (incoming pm) <? chan_cap)%nat; [|discriminate].
  injection Hsent as <-.
  exists (mkWantSet (addEntries_loop cancel 0 ks) []). simpl.
  assert (Hprio : forall (n : nat) e,
             addEntries_loop cancel 0 ks !! n = Some e ->
             Priority (EntryOf e) = kMaxPriority - Z.of_nat n
             /\ (n < length ks)%nat).
  { intros n e He. rewrite addEntries_loop_lookup in He.
    destruct (ks !! n) as [k|] eqn:Hk; [|discriminate].
    apply lookup_lt_Some in Hk.
    injection He as <-. simpl. split; [|exact Hk].
    rewrite wrap_in_int; [lia|].
    unfold in_int, int_min, int_max in *. lia. }
  split; [reflexivity|]. split; [|split].
  - apply list_eq. intros n. rewrite list_lookup_fmap, addEntries_loop_lookup.
    by destruct (ks !! n).
  - intros e He. apply Hprio in He as [-> _]. lia.
  - intros i j ei ej Hi Hj Hij.
    apply Hprio in Hi as [-> _]. apply Hprio in Hj as [-> _]. lia.
Qed.

(** ** The completion callback of a block *)

(** C5. [SendBlock] invokes the completion callback of its envelope once,
    whatever [SendMessage] answers: a nil error or an error, which it
    logs. *)
Theorem SendBlock_calls_Sent_once (e : Envelope) (tr : Trace) :
  sent_calls (Sent e) (SendBlock e tr) = S (sent_calls (Sent e) tr)
  /\ match SendMessage env (calls is_SendMessage tr) with
     | None =>
         SendBlock e tr
         = CallSent (Sent e)
             :: NetSendMessage (env_Peer e) (msg_AddBlock (env_Block e) (msg_New false))
             :: Log Info "Sending block %s to %s"
             :: Observe (Z.of_nat (length (RawData (env_Block e)))) :: tr
     | Some err =>
         SendBlock e tr
         = CallSent (Sent e)
             :: Log Info "sendblock error: %s"
             :: NetSendMessage (env_Peer e) (msg_AddBlock (env_Block e) (msg_New false))
             :: Log Info "Sending block %s to %s"
             :: Observe (Z.of_nat (length (RawData (env_Block e)))) :: tr
     end.
Proof.
  unfold SendBlock, calls. simpl.
  destruct (SendMessage env _) as [err|];
    (split; [|reflexivity]); simpl; rewrite Nat.eqb_refl; reflexivity.
Qed.

(** ** Submissions and shutdown *)

Lemma exec_run_returned (a : Action) (s s' : WantManager * Trace) :
  run_returned (fst s) = true ->
  exec a s = Returned s' ->
  run_returned (fst s') = true.
Proof.
  destruct s as [pm tr]. simpl. intros Hret Hex.
  destruct a; simpl in Hex.
  - unfold WantBlocks, addEntries in Hex.
    destruct c;
      [destruct (length (incoming pm) <? chan_cap)%nat
      |destruct (ctx_done pm)|destruct (ctx_Done ctx)];
      simpl in Hex; simplify_eq; simpl; done.
  - unfold CancelWants, addEntries in Hex.
    destruct c;
      [destruct (length (incoming pm) <? chan_cap)%nat
      |destruct (ctx_done pm)|];
      simpl in Hex; simplify_eq; simpl; done.
  - unfold Connected in Hex.
    destruct c;
      [destruct (length (connect pm) <? chan_cap)%nat|destruct (ctx_done pm)];
      simpl in Hex; simplify_eq; simpl; done.
  - unfold Disconnected in Hex.
    destruct c;
      [destruct (length (disconnect pm) <? chan_cap)%nat|destruct (ctx_done pm)];
      simpl in Hex; simplify_eq; simpl; done.
  - unfold ConnectedPeers in Hex. rewrite Hret in Hex. discriminate.
  - by simplify_eq.
  - by simplify_eq.
  - unfold Run_iter in Hex. rewrite Hret in Hex. discriminate.
  - destruct (peers pm !! p); [|discriminate].
    destruct (runQueue_iter fuel (ctx_done pm) c m tr); simpl in Hex; simplify_eq; simpl; done.
  - destruct (retired pm !! i); [|discriminate].
    destruct (runQueue_iter fuel (ctx_done pm) c m tr); simpl in Hex; simplify_eq; simpl; done.
Qed.

Lemma execs_run_returned (acts : list Action) :
  forall s s',
    run_returned (fst s) = true ->
    execs acts s = Returned s' ->
    run_returned (fst s') = true.
Proof.
  induction acts as [|a acts IH]; intros s s' Hret Hex; simpl in Hex.
  - by simplify_eq.
  - destruct (exec a s) as [s1| | |] eqn:Ha; simpl in Hex; try discriminate.
    eapply IH; [|exact Hex]. eapply exec_run_returned; eauto.
Qed.

(** C9. Once [pm.ctx] is cancelled and [Run] has returned, [WantBlocks],
    [CancelWants], [Connected] and [Disconnected] return through the case
    [<-pm.ctx.Done()] of their [select]; [ConnectedPeers] has no such case:
    its send on [peerReqs] blocks, and nothing that happens later lets it
    go on. *)
Theorem ConnectedPeers_blocks_after_shutdown
    (pm : WantManager) (tr : Trace)
    (Hdone : ctx_done pm = true)
    (Hret : run_returned pm = true) :
  (forall ctx ks,
      WantBlocks ctx ks PmDone pm tr = Returned (pm, Log Info "want blocks: %s" :: tr))
  /\ (forall ks, CancelWants ks PmDone pm tr = Returned (pm, tr))
  /\ (forall p, Connected p NotifyPmDone pm = Returned pm)
  /\ (forall p, Disconnected p NotifyPmDone pm = Returned pm)
  /\ ConnectedPeers pm tr = Blocked
  /\ (forall acts pm' tr',
        execs acts (pm, tr) = Returned (pm', tr') ->
        ConnectedPeers pm' tr' = Blocked).
Proof.
  unfold WantBlocks, CancelWants, addEntries, Connected, Disconnected, ConnectedPeers.
  rewrite Hdone, Hret. repeat split.
  intros acts pm' tr' Hex.
  apply execs_run_returned in Hex; [|exact Hret]. simpl in Hex.
  by rewrite Hex.
Qed.

(** C10. [CancelWants] calls [addEntries] with [context.Background()]: it
    returns only by handing its batch to [incoming] or because [pm.ctx] is
    cancelled, it blocks exactly while [incoming] is full and [pm.ctx] is
    not cancelled, and its caller has no context to cancel; [WantBlocks]
    returns as soon as its caller's context is done. *)
Theorem CancelWants_waits_for_queue_or_shutdown
    (ks : list Cid) (c : SubmitCase) (pm : WantManager) (tr : Trace) :
  CancelWants ks c pm tr
  = bind (addEntries Background ks true c pm) (fun pm' => Returned (pm', tr))
  /\ match CancelWants ks c pm tr with
     | Returned (pm', tr') =>
         tr' = tr
         /\ ((c = SendIncoming
              /\ (length (incoming pm) < chan_cap)%nat
              /\ pm' = set_incoming
                         (incoming pm ++ [mkWantSet (addEntries_loop true 0 ks) []]) pm)
             \/ (c = PmDone /\ ctx_done pm = true /\ pm' = pm))
     | Blocked => True
     | Panicked => False
     | OutOfFuel => False
     end
  /\ CancelWants ks CallerDone pm tr = Blocked
  /\ (blocks (fun c' => CancelWants ks c' pm tr)
      <-> (chan_cap <= length (incoming pm))%nat /\ ctx_done pm = false)
  /\ WantBlocks (Cancellable true) ks CallerDone pm tr
     = Returned (pm, Log Info "want blocks: %s" :: tr).
Proof.
  split; [reflexivity|]. split; [|split; [reflexivity|split; [|reflexivity]]].
  - unfold CancelWants, addEntries.
    destruct c; simpl.
    + destruct (length (incoming pm) <? chan_cap)%nat eqn:Hroom; [|exact I].
      apply Nat.ltb_lt in Hroom. split; [reflexivity|]. left. done.
    + destruct (ctx_done pm) eqn:Hd; [|exact I].
      split; [reflexivity|]. right. done.
    + exact I.
  - unfold blocks, CancelWants, addEntries. split.
    + intros Hb. split.
      * specialize (Hb SendIncoming). simpl in Hb.
        destruct (length (incoming pm) <? chan_cap)%nat eqn:Hroom; [discriminate|].
        apply Nat.ltb_ge in Hroom. exact Hroom.
      * specialize (Hb PmDone). simpl in Hb.
        destruct (ctx_done pm); [discriminate|reflexivity].
    + intros [Hfull Hd] c'. destruct c'; simpl.
      * apply Nat.ltb_ge in Hfull. by rewrite Hfull.
      * by rewrite Hd.
      * reflexivity.
Qed.

(** ** Connect and disconnect events *)

Lemma startPeerHandler_fold (l : list Entry) :
  forall (w0 : Wantlist) (m0 : BitSwapMessage),
    NoDup (e_Cid <$> l) ->
    (forall e, e ∈ l -> w0 !! e_Cid e = None) ->
    foldl startPeerHandler_entry (w0, m0) l
    = (list_to_map ((fun e => (e_Cid e, e)) <$> l) ∪ w0,
       mkMessage (Full m0)
         (list_to_map ((fun e => (e_Cid e, OpWant (Priority e))) <$> l) ∪ m_wantlist m0)
         (m_blocks m0)).
Proof.
  induction l as [|e l IH]; intros w0 m0 Hnd Hfresh.
  - simpl. rewrite !(left_id_L ∅ (∪)). by destruct m0.
  - rewrite fmap_cons in Hnd. apply NoDup_cons in Hnd as [Hnotin Hnd].
    assert (Hw0 : w0 !! e_Cid e = None) by (apply Hfresh; left).
    assert (Hl1 : (list_to_map ((fun e => (e_Cid e, e)) <$> l) : Wantlist) !! e_Cid e = None).
    { apply not_elem_of_list_to_map_1. by rewrite <- list_fmap_compose. }
    assert (Hl2 : (list_to_map ((fun e => (e_Cid e, OpWant (Priority e))) <$> l)
                    : gmap Cid MsgOp) !! e_Cid e = None).
    { apply not_elem_of_list_to_map_1. by rewrite <- list_fmap_compose. }
    simpl. unfold startPeerHandler_entry at 2, wl_AddEntry. simpl. rewrite Hw0. simpl.
    rewrite IH; [|exact Hnd|].
    + simpl. f_equal.
      * rewrite <- insert_union_r by exact Hl1. by rewrite insert_union_l.
      * f_equal. rewrite <- insert_union_r by exact Hl2. by rewrite insert_union_l.
    + intros e' He'. rewrite lookup_insert_ne; [apply Hfresh; by right|].
      intros Heq. apply Hnotin. rewrite Heq. apply list_elem_of_fmap. by exists e'.
Qed.

Lemma startPeerHandler_seed (w : Wantlist) :
  wl_keys w ->
  foldl startPeerHandler_entry (∅, msg_New true) (wl_Entries w)
  = (w, mkMessage true ((fun e => OpWant (Priority e)) <$> w) []).
Proof.
  intros Hkeys. unfold wl_Entries.
  assert (Hpairs : (fun e => (e_Cid e, e)) <$> (map_to_list w).*2 = map_to_list w).
  { rewrite <- list_fmap_compose.
    rewrite <- (list_fmap_id (map_to_list w)) at 2.
    apply list_fmap_ext. intros i [k e] Hin. simpl.
    apply list_elem_of_lookup_2, elem_of_map_to_list in Hin.
    apply Hkeys in Hin. simpl in Hin. by rewrite Hin. }
  assert (Hcids : e_Cid <$> (map_to_list w).*2 = (map_to_list w).*1).
  { rewrite <- Hpairs at 2. rewrite <- !list_fmap_compose. reflexivity. }
  rewrite startPeerHandler_fold.
  - simpl. rewrite !(right_id_L ∅ (∪)). rewrite Hpairs, list_to_map_to_list. f_equal. f_equal.
    rewrite <- (list_to_map_to_list ((fun e => OpWant (Priority e)) <$> w)).
    rewrite map_to_list_fmap. f_equal.
    rewrite <- Hpairs at 2. rewrite <- !list_fmap_compose. reflexivity.
  - rewrite Hcids. apply NoDup_fst_map_to_list.
  - intros e _. apply lookup_empty.
Qed.

(** C3. A connect event for a registered peer adds one to the reference
    count of its queue and changes nothing else: no queue is made, no
    message is held for it, no pipeline is started. For a peer that is not
    registered it registers a new queue with one reference whose mirror is
    a copy of the process-wide want list, whose pending message is the
    full list of these wants, whose [work] channel holds a signal, and it
    starts the pipeline of that queue. *)
Theorem startPeerHandler_connect
    (p : peerID) (pm : WantManager) (tr : Trace)
    (Hkeys : wl_keys (wl pm))
    (Hrc : forall mq, peers pm !! p = Some mq -> in_int (mq_refcnt mq + 1)) :
  match peers pm !! p with
  | Some mq =>
      startPeerHandler p pm tr
      = (set_peers (<[p := set_refcnt (mq_refcnt mq + 1) mq]> (peers pm)) pm, tr)
  | None =>
      startPeerHandler p pm tr
      = (set_peers
           (<[p := mkMsgQueue p
                     (Some (mkMessage true ((fun e => OpWant (Priority e)) <$> wl pm) []))
                     (wl pm) None 1 true false false]> (peers pm)) pm,
         GoRunQueue p :: tr)
  end.
Proof.
  unfold startPeerHandler.
  destruct (peers pm !! p) as [mq|] eqn:Hp.
  - rewrite wrap_in_int by (by apply Hrc). reflexivity.
  - simpl. rewrite startPeerHandler_seed by exact Hkeys. reflexivity.
Qed.

(** C4, as the code has it. A disconnect event takes one from the
    reference count of the peer's queue; while the count stays positive
    the peer stays registered and its [done] channel open; when it reaches
    zero [done] is closed and the peer is taken out of the registry. A peer
    registered by two connect events is still registered after one
    disconnect event and is torn down by the second. A disconnect event
    for a peer that is not registered changes nothing and writes nothing
    to the log. *)
Theorem stopPeerHandler_disconnect
    (p q : peerID) (pm : WantManager) (tr : Trace)
    (Hrc : forall mq, peers pm !! p = Some mq -> 1 <= mq_refcnt mq <= int_max)
    (Hkeys : wl_keys (wl pm))
    (Hq : peers pm !! q = None) :
  match peers pm !! p with
  | Some mq =>
      if decide (mq_refcnt mq = 1)
      then stopPeerHandler p pm tr
           = (set_retired (set_done true (set_refcnt 0 mq) :: retired pm)
                (set_peers (delete p (peers pm)) pm), tr)
      else stopPeerHandler p pm tr
           = (set_peers (<[p := set_refcnt (mq_refcnt mq - 1) mq]> (peers pm)) pm, tr)
  | None => stopPeerHandler p pm tr = (pm, tr)
  end
  /\ (let s2 := startPeerHandler q (startPeerHandler q pm tr).1 (startPeerHandler q pm tr).2 in
      let s3 := stopPeerHandler q s2.1 s2.2 in
      let s4 := stopPeerHandler q s3.1 s3.2 in
      (exists mq, peers s3.1 !! q = Some mq /\ mq_refcnt mq = 1 /\ mq_done mq = false)
      /\ retired s3.1 = retired pm
      /\ peers s4.1 !! q = None
      /\ (exists mq, retired s4.1 = mq :: retired pm /\ mq_p mq = q /\ mq_done mq = true)
      /\ s4.2 = GoRunQueue q :: tr).
Proof.
  split.
  - unfold stopPeerHandler.
    destruct (peers pm !! p) as [mq|] eqn:Hp; [|reflexivity].
    specialize (Hrc mq eq_refl).
    rewrite wrap_in_int by (unfold in_int, int_min, int_max in *; lia).
    destruct (decide (mq_refcnt mq = 1)) as [H1|H1].
    + rewrite H1. reflexivity.
    + simpl. destruct (0 <? mq_refcnt mq - 1) eqn:Hpos; [reflexivity|].
      apply Z.ltb_ge in Hpos. lia.
  - pose proof (startPeerHandler_connect q pm tr Hkeys) as H1.
    rewrite Hq in H1. rewrite H1 by (intros ? ?; discriminate). clear H1. simpl.
    set (mq0 := mkMsgQueue q _ _ _ _ _ _ _).
    set (pm1 := set_peers (<[q := mq0]> (peers pm)) pm).
    set (tr1 := GoRunQueue q :: tr).
    assert (H2 : startPeerHandler q pm1 tr1
                 = (set_peers (<[q := set_refcnt 2 mq0]> (peers pm)) pm, tr1)).
    { unfold startPeerHandler, pm1. simpl. rewrite lookup_insert_eq.
      rewrite insert_insert_eq. reflexivity. }
    rewrite H2. simpl.
    assert (H3 : stopPeerHandler q (set_peers (<[q := set_refcnt 2 mq0]> (peers pm)) pm) tr1
                 = (pm1, tr1)).
    { unfold stopPeerHandler, pm1. simpl. rewrite lookup_insert_eq. simpl.
      change (0 <? wrap (2 - 1)) with true. simpl.
      rewrite insert_insert_eq. reflexivity. }
    rewrite H3. simpl.
    assert (H4 : stopPeerHandler q pm1 tr1
                 = (set_retired (set_done true (set_refcnt 0 mq0) :: retired pm)
                      (set_peers (delete q (peers pm)) pm), tr1)).
    { unfold stopPeerHandler, pm1. simpl. rewrite lookup_insert_eq. simpl.
      change (0 <? wrap (1 - 1)) with false. simpl.
      rewrite delete_insert_eq. reflexivity. }
    rewrite H4. simpl. rewrite lookup_insert_eq, lookup_delete_eq.
    repeat split; eauto.
Qed.

(** ** Forwarding a batch *)

Lemma Run_target_lookup (es : list bsmsgEntry) (p : peerID) (ts : list peerID) :
  forall (ps : gmap peerID msgQueue) (tr : Trace),
    (foldl (Run_target es) (ps, tr) ts).1 !! p
    = Nat.iter (occurrences p ts) (addMessage es) <$> ps !! p.
Proof.
  induction ts as [|t ts IH]; intros ps tr; simpl.
  - by destruct (ps !! p).
  - unfold Run_target at 2. simpl.
    destruct (ps !! t) as [mq|] eqn:Ht.
    + rewrite IH. case_bool_decide as Htp.
      * subst t. rewrite lookup_insert_eq, Ht. simpl. f_equal.
        symmetry.
        exact (Nat.iter_succ_r (occurrences p ts) msgQueue (addMessage es) mq).
      * by rewrite lookup_insert_ne.
    + rewrite IH. case_bool_decide as Htp; [|reflexivity].
      subst t. by rewrite Ht.
Qed.

Lemma unregistered_insert (ps : gmap peerID msgQueue) (t : peerID) (mq mq' : msgQueue)
    (ts : list peerID) :
  ps !! t = Some mq ->
  unregistered (<[t := mq']> ps) ts = unregistered ps ts.
Proof.
  intros Ht. induction ts as [|t' ts IH]; simpl; [reflexivity|].
  rewrite IH. f_equal.
  destruct (decide (t = t')) as [<-|Hne].
  - by rewrite lookup_insert_eq, Ht.
  - by rewrite lookup_insert_ne.
Qed.

Lemma Run_target_log (es : list bsmsgEntry) (ts : list peerID) :
  forall (ps : gmap peerID msgQueue) (tr : Trace),
    (foldl (Run_target es) (ps, tr) ts).2
    = repeat (Log Warning "tried sending wantlist change to non-partner peer")
             (unregistered ps ts) ++ tr.
Proof.
  induction ts as [|t ts IH]; intros ps tr; simpl; [reflexivity|].
  unfold Run_target at 2. simpl.
  destruct (ps !! t) as [mq|] eqn:Ht.
  - rewrite IH. by erewrite unregistered_insert.
  - rewrite IH. simpl.
    generalize (unregistered ps ts). intros n.
    induction n as [|n IHn]; simpl; [reflexivity|]. by rewrite IHn.
Qed.

(** C7. When [Run] forwards a batch without targets, every registered
    peer's queue gets the batch through [addMessage]. When targets are
    named, the queue of a registered peer gets it once for every time the
    peer is named, so a peer that is not named keeps its queue as it was;
    a target that is not registered gets a warning in the log and is
    skipped. The registry itself, the process-wide list and the channels
    are as they would be without the forwarding, and the turn of the loop
    ends normally. *)
Theorem Run_incoming_forwards (ws : wantSet) (pm : WantManager) (tr : Trace) :
  let r := Run_incoming ws pm tr in
  let pm1 :=
    set_wl_gauge (foldl Run_apply_entry (wl pm, wantlistGauge pm) (entries ws)) pm in
  r.1 = set_peers (peers r.1) pm1
  /\ match targets ws with
     | [] =>
         peers r.1 = addMessage (entries ws) <$> peers pm
         /\ r.2 = tr
     | _ :: _ =>
         (forall p,
             peers r.1 !! p
             = Nat.iter (occurrences p (targets ws)) (addMessage (entries ws))
                 <$> peers pm !! p)
         /\ (forall p, p ∉ targets ws -> peers r.1 !! p = peers pm !! p)
         /\ (forall p, peers pm !! p = None -> peers r.1 !! p = None)
         /\ r.2 = repeat (Log Warning "tried sending wantlist change to non-partner peer")
                         (unregistered (peers pm) (targets ws)) ++ tr
     end.
Proof.
  unfold Run_incoming.
  change (peers (set_wl_gauge _ pm)) with (peers pm).
  destruct (Run_broadcast ws (peers pm) tr) as [ps' tr'] eqn:Hb.
  cbn [fst snd]. change (peers (set_peers ps' _)) with ps'.
  split; [reflexivity|].
  unfold Run_broadcast in Hb.
  destruct (targets ws) as [|t ts] eqn:Hts.
  - simpl in Hb. by injection Hb as <- <-.
  - change (length (t :: ts) =? 0)%nat with false in Hb. cbv iota in Hb.
    assert (Hlook : forall p,
               ps' !! p
               = Nat.iter (occurrences p (t :: ts)) (addMessage (entries ws))
                   <$> peers pm !! p).
    { intros p. rewrite <- (Run_target_lookup (entries ws) p (t :: ts) (peers pm) tr).
      by rewrite Hb. }
    split; [exact Hlook|]. split; [|split].
    + intros p Hp. rewrite Hlook.
      assert (Hocc : occurrences p (t :: ts) = 0%nat).
      { clear -Hp. induction (t :: ts) as [|t' ts' IH]; simpl; [reflexivity|].
        apply not_elem_of_cons in Hp as [Hne Hp].
        rewrite IH by exact Hp. case_bool_decide; [congruence|reflexivity]. }
      rewrite Hocc. simpl. by destruct (peers pm !! p).
    + intros p Hp. by rewrite Hlook, Hp.
    + pose proof (Run_target_log (entries ws) (t :: ts) (peers pm) tr) as Hlog.
      by rewrite Hb in Hlog.
Qed.

(** ** The size gauge *)

Lemma wl_ok_keys (w : Wantlist) : wl_ok w -> wl_keys w.
Proof. intros Hok k e Hk. by destruct (Hok k e Hk). Qed.

Ltac gauge_cases :=
  repeat split; intros; try lia; try done;
  first [left; lia | right; left; lia | right; right; lia].

Lemma Run_apply_entry_gauge (w : Wantlist) (g : Z) (e : bsmsgEntry) :
  wl_ok w ->
  RefCnt (EntryOf e) = 1 ->
  let r := Run_apply_entry (w, g) e in
  let c := e_Cid (EntryOf e) in
  wl_ok r.1
  /\ r.2 - g = Z.of_nat (size r.1) - Z.of_nat (size w)
  /\ (r.2 = g + 1 <-> Cancel e = false /\ wl_refcnt w c = 0 /\ wl_refcnt r.1 c = 1)
  /\ (r.2 = g - 1 <-> Cancel e = true /\ wl_refcnt w c = 1 /\ wl_refcnt r.1 c = 0)
  /\ (r.2 = g \/ r.2 = g + 1 \/ r.2 = g - 1).
Proof.
  intros Hok He. unfold Run_apply_entry, wl_Remove, wl_AddEntry, wl_refcnt. simpl.
  destruct (Cancel e) eqn:Hc; destruct (w !! e_Cid (EntryOf e)) as [ex|] eqn:Hw.
  - destruct (Hok _ _ Hw) as [Hcid Hrc].
    destruct (RefCnt ex - 1 <=? 0) eqn:Hz; simpl.
    + apply Z.leb_le in Hz. rewrite lookup_delete_eq.
      pose proof (map_size_delete_Some (e_Cid (EntryOf e)) w (mk_is_Some _ _ Hw)) as Hsz.
      pose proof (map_size_ne_0_lookup_2 w _ (mk_is_Some _ _ Hw)) as Hne.
      split; [by apply map_Forall_delete|].
      gauge_cases.
    + apply Z.leb_gt in Hz. rewrite lookup_insert_eq. simpl.
      rewrite map_size_insert_Some by eauto.
      split; [apply map_Forall_insert_2; [simpl; split; [done|lia]|done]|].
      gauge_cases.
  - simpl. rewrite Hw.
    split; [done|]. gauge_cases.
  - destruct (Hok _ _ Hw) as [Hcid Hrc].
    destruct (RefCnt ex <=? 0) eqn:Hz; [apply Z.leb_le in Hz; lia|]. simpl.
    rewrite lookup_insert_eq. simpl. rewrite map_size_insert_Some by eauto.
    split; [apply map_Forall_insert_2; [simpl; split; [done|lia]|done]|].
    gauge_cases.
  - simpl. rewrite lookup_insert_eq. rewrite map_size_insert_None by done.
    split; [apply map_Forall_insert_2; [simpl; split; [done|lia]|done]|].
    gauge_cases.
Qed.

Lemma Run_apply_entries_gauge (es : list bsmsgEntry) :
  forall (w : Wantlist) (g : Z),
    wl_ok w ->
    Forall (fun e => RefCnt (EntryOf e) = 1) es ->
    g = Z.of_nat (size w) ->
    wl_ok (foldl Run_apply_entry (w, g) es).1
    /\ (foldl Run_apply_entry (w, g) es).2
       = Z.of_nat (size (foldl Run_apply_entry (w, g) es).1).
Proof.
  induction es as [|e es IH]; intros w g Hok Hes Hg; cbn [foldl]; [done|].
  apply Forall_cons in Hes as [He Hes].
  pose proof (Run_apply_entry_gauge w g e Hok He) as (Hok' & Hsz & _).
  destruct (Run_apply_entry (w, g) e) as [w' g']. cbn [fst snd] in *.
  apply IH; [done|done|lia].
Qed.

Lemma addEntries_loop_batch_ok (cancel : bool) (ks : list Cid) :
  forall i, Forall (fun e => RefCnt (EntryOf e) = 1) (addEntries_loop cancel i ks).
Proof.
  induction ks as [|k ks IH]; intros i; simpl; constructor; [reflexivity|apply IH].
Qed.

Lemma gauge_inv_frame (pm pm' : WantManager) :
  wl pm' = wl pm ->
  wantlistGauge pm' = wantlistGauge pm ->
  incoming pm' = incoming pm ->
  gauge_inv pm -> gauge_inv pm'.
Proof. unfold gauge_inv. intros -> -> ->. done. Qed.

Lemma startPeerHandler_frame (p : peerID) (pm : WantManager) (tr : Trace) :
  let pm' := (startPeerHandler p pm tr).1 in
  wl pm' = wl pm /\ wantlistGauge pm' = wantlistGauge pm /\ incoming pm' = incoming pm
  /\ connect pm' = connect pm /\ disconnect pm' = disconnect pm
  /\ retired pm' = retired pm.
Proof.
  unfold startPeerHandler. destruct (peers pm !! p); [done|].
  by destruct (foldl _ _ _).
Qed.

Lemma stopPeerHandler_frame (p : peerID) (pm : WantManager) (tr : Trace) :
  let pm' := (stopPeerHandler p pm tr).1 in
  wl pm' = wl pm /\ wantlistGauge pm' = wantlistGauge pm /\ incoming pm' = incoming pm
  /\ connect pm' = connect pm /\ disconnect pm' = disconnect pm.
Proof.
  unfold stopPeerHandler. destruct (peers pm !! p); [|done].
  by destruct (0 <? _).
Qed.

Lemma Run_incoming_gauge_inv (ws : wantSet) (rest : list wantSet) (pm : WantManager)
    (tr : Trace) :
  incoming pm = ws :: rest ->
  gauge_inv pm ->
  gauge_inv (Run_incoming ws (set_incoming rest pm) tr).1.
Proof.
  intros Hin (Hok & Hg & Hbatches). rewrite Hin in Hbatches.
  apply Forall_cons in Hbatches as [Hws Hrest].
  unfold Run_incoming.
  destruct (Run_broadcast _ _ _) as [ps tr']. simpl.
  destruct (Run_apply_entries_gauge (entries ws) (wl pm) (wantlistGauge pm) Hok Hws Hg)
    as [Hok' Hg'].
  unfold gauge_inv. simpl. done.
Qed.

Lemma exec_gauge_inv (a : Action) (s s' : WantManager * Trace) :
  gauge_inv s.1 ->
  exec a s = Returned s' ->
  gauge_inv s'.1.
Proof.
  destruct s as [pm tr]. simpl. intros Hinv Hex.
  assert (Hsubmit : forall ctx ks cancel c pm',
             addEntries ctx ks cancel c pm = Returned pm' -> gauge_inv pm').
  { intros ctx ks cancel c pm' Hadd. unfold addEntries in Hadd.
    destruct c;
      [destruct (length (incoming pm) <? chan_cap)%nat
      |destruct (ctx_done pm)|destruct (ctx_Done ctx)];
      simplify_eq; try done.
    destruct Hinv as (Hok & Hg & Hb). unfold gauge_inv. simpl.
    split; [done|]. split; [done|].
    apply Forall_app. split; [done|]. constructor; [|constructor].
    apply addEntries_loop_batch_ok. }
  destruct a; simpl in Hex.
  - unfold WantBlocks in Hex.
    destruct (addEntries ctx ks false c pm) eqn:Hadd; simplify_eq. simpl. eauto.
  - unfold CancelWants in Hex.
    destruct (addEntries Background ks true c pm) eqn:Hadd; simplify_eq. simpl. eauto.
  - unfold Connected in Hex.
    destruct c;
      [destruct (length (connect pm) <? chan_cap)%nat|destruct (ctx_done pm)];
      simpl in Hex; simplify_eq; simpl; done.
  - unfold Disconnected in Hex.
    destruct c;
      [destruct (length (disconnect pm) <? chan_cap)%nat|destruct (ctx_done pm)];
      simpl in Hex; simplify_eq; simpl; done.
  - unfold ConnectedPeers in Hex.
    destruct (run_returned pm); simpl in Hex; simplify_eq; simpl; done.
  - by simplify_eq.
  - by simplify_eq.
  - unfold Run_iter in Hex. destruct (run_returned pm); [discriminate|].
    destruct c.
    + destruct (incoming pm) as [|ws rest] eqn:Hin; simplify_eq.
      by eapply Run_incoming_gauge_inv.
    + simplify_eq. simpl. done.
    + destruct (connect pm) as [|p rest]; simplify_eq.
      destruct (startPeerHandler_frame p (set_connect rest pm) tr) as (H1 & H2 & H3 & _).
      eapply gauge_inv_frame; eauto.
    + destruct (disconnect pm) as [|p rest]; simplify_eq.
      destruct (stopPeerHandler_frame p (set_disconnect rest pm) tr) as (H1 & H2 & H3 & _).
      eapply gauge_inv_frame; eauto.
    + by simplify_eq.
    + destruct (ctx_done pm); simplify_eq. simpl. done.
  - destruct (peers pm !! p); [|discriminate].
    destruct (runQueue_iter fuel (ctx_done pm) c m tr); simpl in Hex; simplify_eq.
    simpl. done.
  - destruct (retired pm !! i); [|discriminate].
    destruct (runQueue_iter fuel (ctx_done pm) c m tr); simpl in Hex; simplify_eq.
    simpl. done.
Qed.

Lemma reachable_gauge_inv (s : WantManager * Trace) : reachable s -> gauge_inv s.1.
Proof.
  intros [acts Hacts].
  assert (Hgen : forall acts s0 s1,
             gauge_inv s0.1 -> execs acts s0 = Returned s1 -> gauge_inv s1.1).
  { clear. intros acts. induction acts as [|a acts IH]; intros s0 s1 Hinv Hex; simpl in Hex.
    - by simplify_eq.
    - destruct (exec a s0) as [s0'| | |] eqn:Ha; simpl in Hex; try discriminate.
      eapply IH; [|exact Hex]. eapply exec_gauge_inv; eauto. }
  eapply Hgen; [|exact Hacts]. simpl.
  unfold gauge_inv, NewWantManager. simpl.
  split; [apply map_Forall_empty|]. split; [reflexivity|constructor].
Qed.

(** C6. In every state the system can reach the size gauge is the number
    of ids of the process-wide want list, and these are the ids with a
    positive reference count. Applying one entry of a batch to the list
    moves the gauge up by one exactly when the entry is a want that takes
    the reference count of its id from 0 to 1, down by one exactly when it
    is a cancel that takes it from 1 to 0, and leaves it alone otherwise
    (a want of an active id, a cancel that leaves references, a cancel of
    an absent id). *)
Theorem wantlistGauge_counts_active_ids
    (s : WantManager * Trace) (Hreach : reachable s) :
  wantlistGauge s.1 = Z.of_nat (size (wl s.1))
  /\ (forall c, is_Some (wl s.1 !! c) <-> 0 < wl_refcnt (wl s.1) c)
  /\ wl_ok (wl s.1)
  /\ Forall batch_ok (incoming s.1)
  /\ (forall (w : Wantlist) (g : Z) (e : bsmsgEntry),
        wl_ok w ->
        RefCnt (EntryOf e) = 1 ->
        let r := Run_apply_entry (w, g) e in
        let c := e_Cid (EntryOf e) in
        wl_ok r.1
        /\ (r.2 = g + 1 <-> Cancel e = false /\ wl_refcnt w c = 0 /\ wl_refcnt r.1 c = 1)
        /\ (r.2 = g - 1 <-> Cancel e = true /\ wl_refcnt w c = 1 /\ wl_refcnt r.1 c = 0)
        /\ (r.2 = g \/ r.2 = g + 1 \/ r.2 = g - 1)).
Proof.
  destruct (reachable_gauge_inv s Hreach) as (Hok & Hg & Hb).
  split; [exact Hg|]. split; [|split; [exact Hok|split; [exact Hb|]]].
  - intros c. unfold wl_refcnt. split.
    + intros [e He]. rewrite He. destruct (Hok c e He). lia.
    + destruct (wl s.1 !! c); [eauto|lia].
  - intros w g e Hw He.
    destruct (Run_apply_entry_gauge w g e Hw He) as (H1 & _ & H2 & H3 & H4). done.
Qed.

(** ** The send loop of a pipeline *)

Lemma repeat_snoc_app {A : Type} (x : A) (n : nat) (l : list A) :
  repeat x n ++ x :: l = x :: repeat x n ++ l.
Proof. induction n as [|n IH]; simpl; [reflexivity|]. by rewrite IH. Qed.




(** ** The periodic rebroadcast *)

Lemma addMessage_entry_known (w : Wantlist) (out : BitSwapMessage) (work : bool)
    (e : bsmsgEntry) :
  Cancel e = false ->
  0 < wl_refcnt w (e_Cid (EntryOf e)) ->
  exists w',
    addMessage_entry (w, out, work) e = (w', out, work)
    /\ (forall c, 0 < wl_refcnt w c -> 0 < wl_refcnt w' c).
Proof.
  intros Hc Hact. unfold addMessage_entry, wl_Add, wl_AddEntry, wl_refcnt in *.
  rewrite Hc. simpl.
  destruct (w !! e_Cid (EntryOf e)) as [ex|] eqn:Hw; [|lia].
  destruct (RefCnt ex <=? 0) eqn:Hz; [apply Z.leb_le in Hz; lia|].
  eexists. split; [reflexivity|].
  intros c Hpos. destruct (decide (e_Cid (EntryOf e) = c)) as [<-|Hne].
  - rewrite lookup_insert_eq. simpl. lia.
  - by rewrite lookup_insert_ne.
Qed.

Lemma addMessage_known (es : list bsmsgEntry) :
  forall (w : Wantlist) (out : BitSwapMessage) (work : bool),
    Forall (fun e => Cancel e = false /\ 0 < wl_refcnt w (e_Cid (EntryOf e))) es ->
    exists w',
      foldl addMessage_entry (w, out, work) es = (w', out, work)
      /\ (forall c, 0 < wl_refcnt w c -> 0 < wl_refcnt w' c).
Proof.
  induction es as [|e es IH]; intros w out work Hes; cbn [foldl].
  - exists w. done.
  - apply Forall_cons in Hes as [[Hc Hact] Hes].
    destruct (addMessage_entry_known w out work e Hc Hact) as (w1 & -> & Hmono).
    destruct (IH w1 out work) as (w' & Hrun & Hmono').
    + eapply Forall_impl; [exact Hes|]. intros e' [? ?]. split; [done|]. by apply Hmono.
    + exists w'. split; [exact Hrun|]. intros c Hpos. by apply Hmono', Hmono.
Qed.

(** C2, what the code does. When the timer of [Run] fires, the queue of a
    registered peer whose mirror holds every id of the process-wide list
    gets an empty full message as its pending message and no work signal;
    its mirror is not reset, it still holds these ids; and a turn of
    [doWork] on that queue hands nothing to [SendMsg]. The snapshot is not
    sent again. *)
Theorem Run_tick_sends_nothing_known
    (pm : WantManager) (p : peerID) (mq : msgQueue)
    (Hp : peers pm !! p = Some mq)
    (Hkeys : wl_keys (wl pm))
    (Hmirror : map_Forall (fun c _ => 0 < wl_refcnt (mq_wl mq) c) (wl pm)) :
  exists mq',
    peers (Run_tick pm) !! p = Some mq'
    /\ mq_out mq' = Some (msg_New true)
    /\ mq_work mq' = mq_work mq
    /\ map_Forall (fun c _ => 0 < wl_refcnt (mq_wl mq') c) (wl pm)
    /\ (forall fuel tr, exists mq2 tr2,
           doWork fuel mq' tr = Returned (mq2, tr2)
           /\ sent_msgs tr2 = sent_msgs tr).
Proof.
  unfold Run_tick. simpl. rewrite lookup_fmap, Hp. simpl.
  eexists. split; [reflexivity|].
  unfold addMessage. simpl.
  destruct (addMessage_known (map (mkMsgEntry false) (wl_Entries (wl pm)))
              (mq_wl mq) (msg_New true) false) as (w' & Hrun & Hmono).
  { apply Forall_forall. intros e He.
    apply list_elem_of_fmap in He as (e0 & -> & He0). simpl. split; [reflexivity|].
    unfold wl_Entries in He0. apply list_elem_of_fmap in He0 as ([k e1] & -> & Hin).
    apply elem_of_map_to_list in Hin. simpl.
    pose proof (Hkeys _ _ Hin) as Hk. simpl in Hk. rewrite Hk.
    exact (Hmirror _ _ Hin). }
  rewrite Hrun. simpl.
  split; [reflexivity|]. split; [reflexivity|].
  split; [intros c e Hc; apply Hmono; exact (Hmirror _ _ Hc)|].
  intros fuel tr. unfold doWork, doWork_open, openSender. simpl.
  destruct (mq_sender mq) as [s|]; simpl.
  - eauto.
  - destruct (ConnectTo env _); simpl; [eauto|].
    destruct (NewMessageSender env _); simpl; eauto.
Qed.

(** ** More on the pipeline *)

Lemma doWork_send_shape (fuel : nat) :
  forall (wlm : BitSwapMessage) (mq : msgQueue) (tr : Trace),
    is_Some (mq_sender mq) ->
    match doWork_send fuel wlm mq tr with
    | Returned (mq', tr') =>
        mq' = set_sender (mq_sender mq') mq
        /\ exists k, (1 <= k <= fuel)%nat /\ sent_msgs tr' = repeat wlm k ++ sent_msgs tr
    | Blocked => False
    | Panicked => False
    | OutOfFuel => True
    end.
Proof.
  induction fuel as [|fuel IH]; intros wlm mq tr [s Hs]; cbn [doWork_send]; [exact I|].
  rewrite Hs.
  destruct (SendMsg env (calls is_SendMsg tr)) as [err|].
  - assert (Hshape : set_sender None mq = set_sender None mq) by reflexivity.
    destruct (if mq_done (set_sender None mq) then WDone
              else afterSendError env (calls is_SendMsg tr)).
    + split; [by destruct mq|]. exists 1%nat. split; [lia|reflexivity].
    + split; [by destruct mq|]. exists 1%nat. split; [lia|reflexivity].
    + unfold openSender.
      destruct (ConnectTo env _) as [err1|].
      { split; [by destruct mq|]. exists 1%nat. split; [lia|reflexivity]. }
      destruct (NewMessageSender env _) as [err2|].
      { split; [by destruct mq|]. exists 1%nat. split; [lia|reflexivity]. }
      match goal with
      | |- context [doWork_send fuel wlm ?m ?t] =>
          pose proof (IH wlm m t ltac:(simpl; eauto)) as Hrec;
          destruct (doWork_send fuel wlm m t) as [[mq' tr']| | |]; try done
      end.
      destruct Hrec as (Hmq & k & Hk & Hsent).
      split; [rewrite Hmq; by destruct mq|].
      exists (S k). split; [lia|].
      rewrite Hsent. simpl. by rewrite repeat_snoc_app.
  - split; [destruct mq; simpl in *; by rewrite Hs|].
    exists 1%nat. split; [lia|reflexivity].
Qed.

Lemma doWork_open_shape (mq : msgQueue) (tr : Trace) :
  let r := doWork_open mq tr in
  r.1.2 = set_sender (mq_sender r.1.2) mq
  /\ sent_msgs r.2 = sent_msgs tr
  /\ (r.1.1 = None -> is_Some (mq_sender r.1.2))
  /\ (is_Some r.1.1 -> r.1.2 = mq).
Proof.
  unfold doWork_open, openSender.
  destruct (mq_sender mq) as [s|] eqn:Hs; simpl.
  - rewrite Hs. repeat split; eauto. destruct mq; simpl in *. by rewrite Hs.
  - destruct (ConnectTo env _); simpl.
    { rewrite Hs. repeat split; try done. destruct mq; simpl in *. by rewrite Hs. }
    destruct (NewMessageSender env _); simpl.
    { rewrite Hs. repeat split; try done. destruct mq; simpl in *. by rewrite Hs. }
    repeat split; eauto. intros [? ?]. done.
Qed.

Lemma doWork_shape (fuel : nat) (mq : msgQueue) (tr : Trace) :
  match doWork fuel mq tr with
  | Returned (mq', tr') =>
      set_sender None (set_out None mq') = set_sender None (set_out None mq)
      /\ ((mq_out mq' = mq_out mq /\ sent_msgs tr' = sent_msgs tr)
          \/ (exists wlm k,
                 mq_out mq = Some wlm
                 /\ msg_Empty wlm = false
                 /\ mq_out mq' = None
                 /\ (1 <= k <= fuel)%nat
                 /\ sent_msgs tr' = repeat wlm k ++ sent_msgs tr))
  | Blocked => False
  | Panicked => False
  | OutOfFuel => True
  end.
Proof.
  unfold doWork.
  destruct (doWork_open_shape mq tr) as (Hmq1 & Hsent1 & Hok & Herr).
  destruct (doWork_open mq tr) as [[[err|] mq1] tr1]; simpl in *.
  - rewrite (Herr ltac:(eauto)). split; [reflexivity|]. left. done.
  - assert (Hout1 : mq_out mq1 = mq_out mq) by (rewrite Hmq1; reflexivity).
    assert (Hframe : set_sender None (set_out None mq1) = set_sender None (set_out None mq)).
    { rewrite Hmq1. by destruct mq. }
    destruct (mq_out mq1) as [wlm|] eqn:Hwlm.
    + destruct (msg_Empty wlm) eqn:Hempty.
      * split; [exact Hframe|]. left. by rewrite Hwlm.
      * pose proof (doWork_send_shape fuel wlm (set_out None mq1) tr1
                      ltac:(simpl; by apply Hok)) as Hsend.
        destruct (doWork_send fuel wlm (set_out None mq1) tr1) as [[mq' tr']| | |];
          try done.
        destruct Hsend as (Hmq' & k & Hk & Hsent).
        split.
        { rewrite Hmq'. rewrite <- Hframe. by destruct mq1. }
        right. exists wlm, k. rewrite Hmq'. simpl.
        repeat split; try done; try lia. by rewrite Hsent, Hsent1.
    + split; [exact Hframe|]. left. by rewrite Hwlm.
Qed.

(** X1. A turn of [doWork] never dereferences a nil sender. When it
    returns it has either sent nothing and left the pending message as it
    was, or it has taken a pending message that is not empty, emptied the
    slot, and handed that same message, and no other, to [SendMsg] between
    once and as often as the loop turned. It touches no other field of the
    queue than [out] and [sender]. *)
Theorem doWork_sends_only_pending (fuel : nat) (mq : msgQueue) (tr : Trace) :
  match doWork fuel mq tr with
  | Returned (mq', tr') =>
      set_sender None (set_out None mq') = set_sender None (set_out None mq)
      /\ ((mq_out mq' = mq_out mq /\ sent_msgs tr' = sent_msgs tr)
          \/ (exists wlm k,
                 mq_out mq = Some wlm
                 /\ msg_Empty wlm = false
                 /\ mq_out mq' = None
                 /\ (1 <= k <= fuel)%nat
                 /\ sent_msgs tr' = repeat wlm k ++ sent_msgs tr))
  | Blocked => False
  | Panicked => False
  | OutOfFuel => True
  end.
Proof. apply doWork_shape. Qed.

(** X2. When a pipeline takes a work signal without an open sender and no
    sender can be opened ([ConnectTo] or [NewMessageSender] returns an
    error), the turn ends after one log line: nothing is sent, the pending
    message stays in its slot, the sender stays nil, and the work signal is
    used up, so that the message waits until [addMessage] signals again. *)
Theorem runQueue_open_failure_keeps_message
    (fuel : nat) (ctxdone : bool) (mq : msgQueue) (tr : Trace)
    (Hlive : mq_exited mq = false)
    (Hwork : mq_work mq = true)
    (Hnil : mq_sender mq = None)
    (Hfail : is_Some (ConnectTo env (calls is_ConnectTo tr))
             \/ is_Some (NewMessageSender env (calls is_NewMessageSender tr))) :
  exists tr',
    runQueue_iter fuel ctxdone QWork mq tr = Returned (set_work false mq, tr')
    /\ (exists evs, tr' = Log Info "cant open message sender to peer %s: %s" :: evs ++ tr
                    /\ sent_msgs evs = [])
    /\ sent_msgs tr' = sent_msgs tr
    /\ (forall fuel' tr2,
           runQueue_iter fuel' ctxdone QWork (set_work false mq) tr2 = Blocked).
Proof.
  unfold runQueue_iter. rewrite Hlive, Hwork.
  unfold doWork, doWork_open, openSender. cbn [mq_sender set_work mq_exited mq_work].
  rewrite Hnil, Hlive.
  destruct (ConnectTo env (calls is_ConnectTo tr)) as [err|] eqn:Hcon.
  - eexists. split; [reflexivity|]. split; [|split; [reflexivity|done]].
    exists [NetConnectTo (mq_p mq)]. done.
  - change (calls is_NewMessageSender (NetConnectTo (mq_p (set_work false mq)) :: tr))
      with (calls is_NewMessageSender tr).
    destruct (NewMessageSender env (calls is_NewMessageSender tr)) as [err|] eqn:Hnms.
    + eexists. split; [reflexivity|]. split; [|split; [reflexivity|done]].
      exists [NetNewMessageSender (mq_p mq); NetConnectTo (mq_p mq)]. done.
    + destruct Hfail as [[? ?]|[? ?]]; done.
Qed.

(** X3. When the pipeline of a queue sees [done] closed or the context
    cancelled it returns: it closes the open sender, if there is one, and
    sends nothing, also when a message is still pending. After that the
    pipeline takes no further turn, whatever is signalled. *)
Theorem runQueue_exit_closes_sender
    (fuel : nat) (ctxdone : bool) (c : QueueCase) (mq : msgQueue) (tr : Trace)
    (Hlive : mq_exited mq = false)
    (Hcase : (c = QDone /\ mq_done mq = true) \/ (c = QCtx /\ ctxdone = true)) :
  runQueue_iter fuel ctxdone c mq tr
  = Returned (set_exited true mq,
              match mq_sender mq with
              | Some s => NetClose s :: tr
              | None => tr
              end)
  /\ (forall fuel' ctxdone' c' (es : list bsmsgEntry) tr2,
         runQueue_iter fuel' ctxdone' c' (addMessage es (set_exited true mq)) tr2 = Blocked).
Proof.
  split.
  - unfold runQueue_iter, runQueue_return. rewrite Hlive.
    destruct Hcase as [[-> Hd]|[-> Hc]].
    + rewrite Hd. by destruct (mq_sender mq).
    + rewrite Hc. by destruct (mq_sender mq).
  - intros fuel' ctxdone' c' es tr2. unfold runQueue_iter, addMessage.
    by destruct (foldl _ _ _) as [[? ?] ?].
Qed.

(** ** More on connect and disconnect events *)

Lemma set_refcnt_same (mq : msgQueue) : set_refcnt (mq_refcnt mq) mq = mq.
Proof. by destruct mq. Qed.

Lemma set_peers_same (pm : WantManager) : set_peers (peers pm) pm = pm.
Proof. by destruct pm. Qed.

Lemma startPeerHandler_new (p : peerID) (pm : WantManager) (tr : Trace) :
  peers pm !! p = None ->
  exists mq,
    startPeerHandler p pm tr = (set_peers (<[p := mq]> (peers pm)) pm, GoRunQueue p :: tr)
    /\ mq_p mq = p /\ mq_refcnt mq = 1 /\ mq_done mq = false /\ mq_exited mq = false
    /\ mq_work mq = true /\ mq_sender mq = None.
Proof.
  intros Hp. unfold startPeerHandler. rewrite Hp.
  destruct (foldl _ _ _) as [mirror full]. eexists. split; [reflexivity|]. done.
Qed.

Lemma connects_registered (p : peerID) (m : nat) :
  forall (pm : WantManager) (tr : Trace) (mq : msgQueue),
    peers pm !! p = Some mq ->
    int_min <= mq_refcnt mq ->
    mq_refcnt mq + Z.of_nat m <= int_max ->
    connects p m (pm, tr)
    = (set_peers (<[p := set_refcnt (mq_refcnt mq + Z.of_nat m) mq]> (peers pm)) pm, tr).
Proof.
  induction m as [|m IH]; intros pm tr mq Hp Hlo Hhi.
  - simpl. rewrite Z.add_0_r, set_refcnt_same, insert_id by done.
    by rewrite set_peers_same.
  - unfold connects. rewrite Nat.iter_succ. fold (connects p m (pm, tr)).
    rewrite (IH pm tr mq) by (done || lia).
    unfold startPeerHandler. simpl. rewrite lookup_insert_eq. simpl.
    rewrite wrap_in_int by (unfold in_int; lia).
    rewrite insert_insert_eq.
    replace (mq_refcnt mq + Z.of_nat m + 1) with (mq_refcnt mq + Z.of_nat (S m)) by lia.
    reflexivity.
Qed.

Lemma disconnects_registered (p : peerID) (j : nat) :
  forall (pm : WantManager) (tr : Trace) (mq : msgQueue),
    peers pm !! p = Some mq ->
    mq_refcnt mq <= int_max ->
    Z.of_nat j < mq_refcnt mq ->
    disconnects p j (pm, tr)
    = (set_peers (<[p := set_refcnt (mq_refcnt mq - Z.of_nat j) mq]> (peers pm)) pm, tr).
Proof.
  induction j as [|j IH]; intros pm tr mq Hp Hhi Hj.
  - simpl. rewrite Z.sub_0_r, set_refcnt_same, insert_id by done.
    by rewrite set_peers_same.
  - unfold disconnects. rewrite Nat.iter_succ. fold (disconnects p j (pm, tr)).
    rewrite (IH pm tr mq) by (done || lia).
    unfold stopPeerHandler. simpl. rewrite lookup_insert_eq. simpl.
    rewrite wrap_in_int by (unfold in_int, int_min, int_max in *; lia).
    destruct (0 <? mq_refcnt mq - Z.of_nat j - 1) eqn:Hpos;
      [|apply Z.ltb_ge in Hpos; lia].
    rewrite insert_insert_eq.
    replace (mq_refcnt mq - Z.of_nat j - 1) with (mq_refcnt mq - Z.of_nat (S j)) by lia.
    reflexivity.
Qed.

(** X4. Connect and disconnect events of a peer balance. [n] connect
    events for a peer that is not registered start one pipeline and leave
    its queue registered with the reference count [n]; after [j < n]
    disconnect events the queue is still registered, with the count
    [n - j] and its [done] channel open, and nothing has been retired;
    the [n]-th disconnect event closes [done], retires the queue and leaves
    the registry as it was before the first connect event. *)
Theorem connects_disconnects_balance
    (p : peerID) (n : nat) (pm : WantManager) (tr : Trace)
    (Hp : peers pm !! p = None)
    (Hn : (1 <= n)%nat)
    (Hmax : Z.of_nat n <= int_max) :
  let s := connects p n (pm, tr) in
  s.2 = GoRunQueue p :: tr
  /\ (forall j, (j < n)%nat ->
        exists mq,
          peers (disconnects p j s).1 !! p = Some mq
          /\ mq_refcnt mq = Z.of_nat n - Z.of_nat j
          /\ mq_done mq = false
          /\ retired (disconnects p j s).1 = retired pm
          /\ (disconnects p j s).2 = GoRunQueue p :: tr)
  /\ peers (disconnects p n s).1 = peers pm
  /\ (exists mq,
        retired (disconnects p n s).1 = mq :: retired pm
        /\ mq_p mq = p /\ mq_done mq = true /\ mq_refcnt mq = 0)
  /\ (disconnects p n s).2 = GoRunQueue p :: tr.
Proof.
  destruct n as [|n]; [lia|].
  destruct (startPeerHandler_new p pm tr Hp)
    as (mq0 & Hstart & Hmqp & Hrc & Hdone & _).
  set (pm1 := set_peers (<[p := mq0]> (peers pm)) pm).
  set (tr1 := GoRunQueue p :: tr).
  assert (Hp1 : peers pm1 !! p = Some mq0) by (unfold pm1; simpl; apply lookup_insert_eq).
  assert (Hs : connects p (S n) (pm, tr)
               = (set_peers (<[p := set_refcnt (Z.of_nat (S n)) mq0]> (peers pm)) pm, tr1)).
  { unfold connects. rewrite Nat.iter_succ_r. cbn [fst snd]. rewrite Hstart.
    change (Nat.iter n _ _) with (connects p n (pm1, tr1)).
    rewrite (connects_registered p n pm1 tr1 mq0 Hp1)
      by (unfold int_min; rewrite Hrc; lia).
    unfold pm1. simpl. rewrite insert_insert_eq, Hrc.
    replace (1 + Z.of_nat n) with (Z.of_nat (S n)) by lia.
    reflexivity. }
  set (mqn := set_refcnt (Z.of_nat (S n)) mq0).
  set (pmn := set_peers (<[p := mqn]> (peers pm)) pm).
  assert (Hpn : peers pmn !! p = Some mqn) by (unfold pmn; simpl; apply lookup_insert_eq).
  assert (Hless : forall j, (j < S n)%nat ->
             disconnects p j (pmn, tr1)
             = (set_peers (<[p := set_refcnt (Z.of_nat (S n) - Z.of_nat j) mq0]> (peers pm)) pm,
                tr1)).
  { intros j Hj.
    rewrite (disconnects_registered p j pmn tr1 mqn Hpn) by (unfold mqn; simpl; lia).
    unfold pmn, mqn. simpl. by rewrite insert_insert_eq. }
  intros s. unfold s. rewrite Hs. fold mqn pmn.
  split; [reflexivity|]. split; [|].
  - intros j Hj. rewrite (Hless j Hj). simpl. rewrite lookup_insert_eq.
    eexists. split; [reflexivity|]. simpl. done.
  - assert (Hlast : disconnects p (S n) (pmn, tr1)
                    = (set_retired (set_done true (set_refcnt 0 mq0) :: retired pm) pm, tr1)).
    { unfold disconnects. rewrite Nat.iter_succ. fold (disconnects p n (pmn, tr1)).
      rewrite (Hless n) by lia. unfold stopPeerHandler. simpl.
      rewrite lookup_insert_eq. simpl.
      rewrite wrap_in_int by (unfold in_int, int_min, int_max; lia).
      replace (Z.of_nat (S n) - Z.of_nat n - 1) with 0 by lia.
      cbn [Z.ltb Z.compare]. rewrite delete_insert_eq, delete_id by done.
      by destruct pm. }
    rewrite Hlast. simpl. split; [reflexivity|]. split; [|reflexivity].
    eexists. split; [reflexivity|]. simpl. done.
Qed.

(** X5. The answer of the loop to a request on [peerReqs], which is what
    [ConnectedPeers] returns while [Run] is alive, lists every registered
    peer once and no other peer; answering changes nothing. *)
Theorem ConnectedPeers_lists_registered (pm : WantManager) (tr : Trace) :
  NoDup (peerReqs_answer pm)
  /\ (forall p, p ∈ peerReqs_answer pm <-> is_Some (peers pm !! p))
  /\ length (peerReqs_answer pm) = size (peers pm)
  /\ match ConnectedPeers pm tr with
     | Returned (ps, _) => run_returned pm = false /\ ps = peerReqs_answer pm
     | Blocked => run_returned pm = true
     | Panicked => False
     | OutOfFuel => False
     end
  /\ match Run_iter RPeerReqs pm tr with
     | Returned (pm', tr') =>
         pm' = pm /\ tr' = PeersReply (peerReqs_answer pm) :: tr
     | Blocked => run_returned pm = true
     | Panicked => False
     | OutOfFuel => False
     end.
Proof.
  unfold peerReqs_answer, ConnectedPeers, Run_iter.
  split; [apply NoDup_fst_map_to_list|]. split; [|split].
  - intros p. rewrite list_elem_of_fmap. split.
    + intros ([k mq] & -> & Hin). apply elem_of_map_to_list in Hin. eauto.
    + intros [mq Hmq]. exists (p, mq). split; [reflexivity|].
      by apply elem_of_map_to_list.
  - by rewrite length_fmap, length_map_to_list.
  - destruct (run_returned pm); done.
Qed.

(** ** Shutdown and the channels *)

Lemma runQueue_iter_frame (fuel : nat) (ctxdone : bool) (c : QueueCase)
    (mq mq' : msgQueue) (tr tr' : Trace) :
  runQueue_iter fuel ctxdone c mq tr = Returned (mq', tr') ->
  mq_p mq' = mq_p mq /\ mq_wl mq' = mq_wl mq /\ mq_refcnt mq' = mq_refcnt mq
  /\ mq_done mq' = mq_done mq
  /\ (mq_out mq' = mq_out mq \/ mq_out mq' = None).
Proof.
  unfold runQueue_iter, runQueue_return. destruct (mq_exited mq); [discriminate|].
  destruct c.
  - destruct (mq_work mq); [|discriminate]. intros Hrun.
    pose proof (doWork_shape fuel (set_work false mq) tr) as Hshape.
    rewrite Hrun in Hshape. destruct Hshape as [Hframe Hout].
    pose proof (f_equal mq_p Hframe) as H1. pose proof (f_equal mq_wl Hframe) as H2.
    pose proof (f_equal mq_refcnt Hframe) as H3. pose proof (f_equal mq_done Hframe) as H4.
    simpl in H1, H2, H3, H4. split; [done|]. split; [done|]. split; [done|].
    split; [done|].
    destruct Hout as [[Ho _]|(wlm & k & _ & _ & Ho & _)]; [left|right]; done.
  - destruct (mq_done mq) eqn:Hd; [|discriminate].
    destruct (mq_sender mq); intros [= <- <-]; simpl; repeat split; auto.
  - destruct ctxdone; [|discriminate].
    destruct (mq_sender mq); intros [= <- <-]; simpl; repeat split; auto.
Qed.

Lemma frozen_refl (pm : WantManager) : frozen pm pm.
Proof. unfold frozen. repeat split; done. Qed.

Lemma frozen_trans (pm1 pm2 pm3 : WantManager) :
  frozen pm1 pm2 -> frozen pm2 pm3 -> frozen pm1 pm3.
Proof.
  intros (A1 & A2 & A3 & A4 & A5 & A6 & A7 & A8) (B1 & B2 & B3 & B4 & B5 & B6 & B7 & B8).
  unfold frozen. split; [congruence|]. split; [congruence|].
  split; [intros p; by rewrite B3|]. split; [intros p; by rewrite B4|].
  split; [congruence|]. repeat split; by etrans.
Qed.

Lemma exec_frozen (a : Action) (pm pm' : WantManager) (tr tr' : Trace) :
  run_returned pm = true ->
  exec a (pm, tr) = Returned (pm', tr') ->
  frozen pm pm'.
Proof.
  intros Hret Hex. destruct a; simpl in Hex.
  - unfold WantBlocks, addEntries in Hex.
    destruct c;
      [destruct (length (incoming pm) <? chan_cap)%nat
      |destruct (ctx_done pm)|destruct (ctx_Done ctx)];
      simpl in Hex; simplify_eq; try apply frozen_refl.
    unfold frozen. simpl. repeat split; try done. by apply prefix_app_r.
  - unfold CancelWants, addEntries in Hex.
    destruct c;
      [destruct (length (incoming pm) <? chan_cap)%nat
      |destruct (ctx_done pm)|];
      simpl in Hex; simplify_eq; try apply frozen_refl.
    unfold frozen. simpl. repeat split; try done. by apply prefix_app_r.
  - unfold Connected in Hex.
    destruct c;
      [destruct (length (connect pm) <? chan_cap)%nat|destruct (ctx_done pm)];
      simpl in Hex; simplify_eq; try apply frozen_refl.
    unfold frozen. simpl. repeat split; try done. by apply prefix_app_r.
  - unfold Disconnected in Hex.
    destruct c;
      [destruct (length (disconnect pm) <? chan_cap)%nat|destruct (ctx_done pm)];
      simpl in Hex; simplify_eq; try apply frozen_refl.
    unfold frozen. simpl. repeat split; try done. by apply prefix_app_r.
  - unfold ConnectedPeers in Hex. rewrite Hret in Hex. discriminate.
  - simplify_eq. apply frozen_refl.
  - simplify_eq. unfold frozen. simpl. repeat split; done.
  - unfold Run_iter in Hex. rewrite Hret in Hex. discriminate.
  - destruct (peers pm !! p) as [mq|] eqn:Hp; [|discriminate].
    destruct (runQueue_iter fuel (ctx_done pm) c mq tr) as [[mq' tr1]| | |] eqn:Hrun;
      simpl in Hex; simplify_eq.
    apply runQueue_iter_frame in Hrun as (_ & Hwl & Hrc & _).
    unfold frozen. simpl. split; [done|]. split; [done|].
    split; [|split; [|repeat split; done]].
    + intros q. destruct (decide (p = q)) as [<-|Hne].
      * by rewrite lookup_insert_eq, Hp; simpl; rewrite Hwl.
      * by rewrite lookup_insert_ne.
    + intros q. destruct (decide (p = q)) as [<-|Hne].
      * by rewrite lookup_insert_eq, Hp; simpl; rewrite Hrc.
      * by rewrite lookup_insert_ne.
  - destruct (retired pm !! i) as [mq|] eqn:Hi; [|discriminate].
    destruct (runQueue_iter fuel (ctx_done pm) c mq tr) as [[mq' tr1]| | |] eqn:Hrun;
      simpl in Hex; simplify_eq.
    unfold frozen. simpl. rewrite length_insert. repeat split; done.
Qed.

(** X6. Once [Run] has returned nothing is applied any more: whatever the
    callers and the pipelines do afterwards, the process-wide want list,
    the gauge, the registered peers, their mirrors and reference counts
    and the retired queues stay as they were, and what is handed to
    [incoming], [connect] and [disconnect] stays in these channels. *)
Theorem nothing_applied_after_Run_returns
    (acts : list Action) (pm pm' : WantManager) (tr tr' : Trace)
    (Hret : run_returned pm = true)
    (Hex : execs acts (pm, tr) = Returned (pm', tr')) :
  run_returned pm' = true /\ frozen pm pm'.
Proof.
  split.
  - by apply (execs_run_returned acts (pm, tr) (pm', tr')).
  - revert pm tr Hret Hex.
    induction acts as [|a acts IH]; intros pm tr Hret Hex; cbn [execs] in Hex.
    + simplify_eq. apply frozen_refl.
    + destruct (exec a (pm, tr)) as [[pm1 tr1]| | |] eqn:Ha; cbn [bind] in Hex;
        try discriminate.
      eapply frozen_trans.
      * eapply exec_frozen; eauto.
      * eapply IH; [|exact Hex].
        by apply (exec_run_returned a (pm, tr) (pm1, tr1)).
Qed.

Lemma Run_incoming_chans (ws : wantSet) (pm : WantManager) (tr : Trace) :
  let pm' := (Run_incoming ws pm tr).1 in
  incoming pm' = incoming pm /\ connect pm' = connect pm /\ disconnect pm' = disconnect pm.
Proof. unfold Run_incoming. by destruct (Run_broadcast _ _ _). Qed.

Lemma exec_chans_bounded (a : Action) (s s' : WantManager * Trace) :
  chans_bounded s.1 ->
  exec a s = Returned s' ->
  chans_bounded s'.1.
Proof.
  destruct s as [pm tr]. unfold chans_bounded, chan_cap. simpl.
  intros (Hi & Hc & Hd) Hex. destruct a; simpl in Hex.
  - unfold WantBlocks, addEntries, chan_cap in Hex.
    destruct c;
      [destruct (length (incoming pm) <? 10)%nat eqn:Hroom
      |destruct (ctx_done pm)|destruct (ctx_Done ctx)];
      simpl in Hex; simplify_eq; simpl; try done.
    apply Nat.ltb_lt in Hroom. rewrite length_app. simpl. lia.
  - unfold CancelWants, addEntries, chan_cap in Hex.
    destruct c;
      [destruct (length (incoming pm) <? 10)%nat eqn:Hroom
      |destruct (ctx_done pm)|];
      simpl in Hex; simplify_eq; simpl; try done.
    apply Nat.ltb_lt in Hroom. rewrite length_app. simpl. lia.
  - unfold Connected, chan_cap in Hex.
    destruct c;
      [destruct (length (connect pm) <? 10)%nat eqn:Hroom|destruct (ctx_done pm)];
      simpl in Hex; simplify_eq; simpl; try done.
    apply Nat.ltb_lt in Hroom. rewrite length_app. simpl. lia.
  - unfold Disconnected, chan_cap in Hex.
    destruct c;
      [destruct (length (disconnect pm) <? 10)%nat eqn:Hroom|destruct (ctx_done pm)];
      simpl in Hex; simplify_eq; simpl; try done.
    apply Nat.ltb_lt in Hroom. rewrite length_app. simpl. lia.
  - unfold ConnectedPeers in Hex.
    destruct (run_returned pm); simpl in Hex; simplify_eq; simpl; done.
  - by simplify_eq.
  - by simplify_eq.
  - unfold Run_iter in Hex. destruct (run_returned pm); [discriminate|].
    destruct c.
    + destruct (incoming pm) as [|ws rest] eqn:Hin; simplify_eq.
      destruct (Run_incoming_chans ws (set_incoming rest pm) tr) as (-> & -> & ->).
      simpl in *. lia.
    + simplify_eq. simpl. done.
    + destruct (connect pm) as [|p rest]; simplify_eq.
      destruct (startPeerHandler_frame p (set_connect rest pm) tr)
        as (_ & _ & -> & -> & -> & _).
      simpl in *. lia.
    + destruct (disconnect pm) as [|p rest]; simplify_eq.
      destruct (stopPeerHandler_frame p (set_disconnect rest pm) tr)
        as (_ & _ & -> & -> & ->).
      simpl in *. lia.
    + by simplify_eq.
    + destruct (ctx_done pm); simplify_eq. simpl. done.
  - destruct (peers pm !! p); [|discriminate].
    destruct (runQueue_iter fuel (ctx_done pm) c m tr); simpl in Hex; simplify_eq.
    simpl. done.
  - destruct (retired pm !! i); [|discriminate].
    destruct (runQueue_iter fuel (ctx_done pm) c m tr); simpl in Hex; simplify_eq.
    simpl. done.
Qed.

(** X7. In every state the system can reach none of the channels
    [incoming], [connect] and [disconnect] holds more than the ten elements
    it was made for: a caller whose channel is full is not served before
    the loop has taken an element out or [pm.ctx] is cancelled. *)
Theorem channels_stay_within_capacity
    (s : WantManager * Trace) (Hreach : reachable s) :
  (length (incoming s.1) <= 10)%nat
  /\ (length (connect s.1) <= 10)%nat
  /\ (length (disconnect s.1) <= 10)%nat.
Proof.
  destruct Hreach as [acts Hacts].
  assert (Hgen : forall acts s0 s1,
             chans_bounded s0.1 -> execs acts s0 = Returned s1 -> chans_bounded s1.1).
  { clear. intros acts. induction acts as [|a acts IH]; intros s0 s1 Hinv Hex; simpl in Hex.
    - by simplify_eq.
    - destruct (exec a s0) as [s0'| | |] eqn:Ha; simpl in Hex; try discriminate.
      eapply IH; [|exact Hex]. eapply exec_chans_bounded; eauto. }
  apply (Hgen acts (NewWantManager, []) s); [|exact Hacts].
  unfold chans_bounded, chan_cap. simpl. lia.
Qed.

(** ** Invariants of the queues *)

Lemma addMessage_entry_ok (w : Wantlist) (out : BitSwapMessage) (work : bool)
    (e : bsmsgEntry) :
  wl_ok w ->
  pending_ok w (m_wantlist out) ->
  let r := addMessage_entry (w, out, work) e in
  wl_ok r.1.1 /\ pending_ok r.1.1 (m_wantlist r.1.2).
Proof.
  intros Hok Hpend. unfold addMessage_entry, wl_Remove, wl_Add, wl_AddEntry. simpl.
  set (c := e_Cid (EntryOf e)).
  assert (Hkeep : forall ex x, w !! c = Some ex ->
             pending_ok (<[c := x]> w) (m_wantlist out)).
  { intros ex x Hw c' op Hop. specialize (Hpend c' op Hop).
    destruct (decide (c = c')) as [<-|Hne].
    - rewrite lookup_insert_eq. destruct op; [eauto|congruence].
    - by rewrite lookup_insert_ne. }
  destruct (Cancel e); destruct (w !! c) as [ex|] eqn:Hw; simpl.
  - destruct (Hok _ _ Hw) as [Hcid Hrc].
    destruct (RefCnt ex - 1 <=? 0) eqn:Hz; simpl.
    + split; [by apply map_Forall_delete|].
      intros c' op Hop. destruct (decide (c = c')) as [<-|Hne].
      * rewrite lookup_insert_eq in Hop. injection Hop as <-. apply lookup_delete_eq.
      * rewrite lookup_insert_ne in Hop by done. rewrite lookup_delete_ne by done.
        by apply Hpend.
    + apply Z.leb_gt in Hz.
      split; [apply map_Forall_insert_2; [simpl; split; [done|lia]|done]|].
      by eapply Hkeep.
  - done.
  - destruct (Hok _ _ Hw) as [Hcid Hrc].
    destruct (RefCnt ex <=? 0) eqn:Hz; [apply Z.leb_le in Hz; lia|]. simpl.
    split; [apply map_Forall_insert_2; [simpl; split; [done|lia]|done]|].
    by eapply Hkeep.
  - split; [apply map_Forall_insert_2; [simpl; split; [done|lia]|done]|].
    intros c' op Hop. destruct (decide (c = c')) as [<-|Hne].
    + rewrite lookup_insert_eq in Hop. injection Hop as <-. rewrite lookup_insert_eq. eauto.
    + rewrite lookup_insert_ne in Hop by done. rewrite lookup_insert_ne by done.
      by apply Hpend.
Qed.

Lemma addMessage_fold_ok (es : list bsmsgEntry) :
  forall (w : Wantlist) (out : BitSwapMessage) (work : bool),
    wl_ok w ->
    pending_ok w (m_wantlist out) ->
    let r := foldl addMessage_entry (w, out, work) es in
    wl_ok r.1.1 /\ pending_ok r.1.1 (m_wantlist r.1.2).
Proof.
  induction es as [|e es IH]; intros w out work Hok Hpend; cbn [foldl]; [done|].
  pose proof (addMessage_entry_ok w out work e Hok Hpend) as [Hok1 Hpend1].
  destruct (addMessage_entry (w, out, work) e) as [[w1 out1] work1].
  by apply IH.
Qed.

Lemma addMessage_queue_ok (es : list bsmsgEntry) (p : peerID) (mq : msgQueue) :
  mq_p mq = p ->
  mq_done mq = false ->
  wl_ok (mq_wl mq) ->
  mq_out mq = None \/ pending_ok (mq_wl mq) (out_entries mq) ->
  queue_ok p (addMessage es mq).
Proof.
  intros Hp Hd Hok Hpend. unfold addMessage.
  set (out0 := match mq_out mq with None => msg_New false | Some m => m end).
  assert (Hpend0 : pending_ok (mq_wl mq) (m_wantlist out0)).
  { unfold out0, out_entries in *. destruct (mq_out mq) as [m|].
    - destruct Hpend as [?|?]; done.
    - intros c op Hop. simpl in Hop. by rewrite lookup_empty in Hop. }
  pose proof (addMessage_fold_ok es (mq_wl mq) out0 false Hok Hpend0) as [Hok' Hpend'].
  destruct (foldl addMessage_entry (mq_wl mq, out0, false) es) as [[w out] work].
  unfold queue_ok, out_entries. simpl. done.
Qed.

Lemma addMessage_preserves (es : list bsmsgEntry) (p : peerID) (mq : msgQueue) :
  queue_ok p mq -> queue_ok p (addMessage es mq).
Proof.
  intros (Hp & Hd & Hok & Hpend). apply addMessage_queue_ok; auto.
Qed.

Lemma Run_target_queues (es : list bsmsgEntry) (ts : list peerID) :
  forall (ps : gmap peerID msgQueue) (tr : Trace),
    map_Forall queue_ok ps ->
    map_Forall queue_ok (foldl (Run_target es) (ps, tr) ts).1.
Proof.
  induction ts as [|t ts IH]; intros ps tr Hps; cbn [foldl]; [done|].
  unfold Run_target at 2. cbn [fst snd].
  destruct (ps !! t) as [mq|] eqn:Ht.
  - apply IH. apply map_Forall_insert_2; [|done].
    apply addMessage_preserves. by apply Hps.
  - by apply IH.
Qed.

Lemma Run_incoming_peers_inv (ws : wantSet) (pm : WantManager) (tr : Trace) :
  peers_inv pm -> peers_inv (Run_incoming ws pm tr).1.
Proof.
  intros [Hps Hret]. unfold Run_incoming, Run_broadcast.
  change (peers (set_wl_gauge _ pm)) with (peers pm).
  destruct (length (targets ws) =? 0)%nat.
  - split; [|done]. simpl. intros p mq Hmq.
    rewrite lookup_fmap in Hmq. destruct (peers pm !! p) as [mq0|] eqn:Hp; [|done].
    simpl in Hmq. injection Hmq as <-. apply addMessage_preserves. by apply Hps.
  - pose proof (Run_target_queues (entries ws) (targets ws) (peers pm) tr Hps) as Hq.
    destruct (foldl _ _ _) as [ps' tr']. by split.
Qed.

Lemma Run_tick_peers_inv (pm : WantManager) : peers_inv pm -> peers_inv (Run_tick pm).
Proof.
  intros [Hps Hret]. unfold Run_tick. split; [|done]. simpl.
  intros p mq Hmq. rewrite lookup_fmap in Hmq.
  destruct (peers pm !! p) as [mq0|] eqn:Hp; [|done].
  simpl in Hmq. injection Hmq as <-.
  destruct (Hps _ _ Hp) as (H1 & H2 & H3 & _).
  apply addMessage_queue_ok; try done. right.
  intros c op Hop. unfold out_entries in Hop. simpl in Hop.
  by rewrite lookup_empty in Hop.
Qed.

Lemma startPeerHandler_peers_inv (p : peerID) (pm : WantManager) (tr : Trace) :
  wl_ok (wl pm) ->
  peers_inv pm -> peers_inv (startPeerHandler p pm tr).1.
Proof.
  intros Hwl [Hps Hret].
  unfold startPeerHandler.
  destruct (peers pm !! p) as [mq|] eqn:Hp.
  - split; [|done]. simpl. apply map_Forall_insert_2; [|done].
    destruct (Hps _ _ Hp) as (H1 & H2 & H3 & H4). done.
  - simpl. rewrite (startPeerHandler_seed (wl pm) (wl_ok_keys _ Hwl)).
    split; [|done]. simpl. apply map_Forall_insert_2; [|done].
    unfold queue_ok, out_entries. simpl. repeat split; try done.
    + by destruct (Hwl _ _ H).
    + by destruct (Hwl _ _ H).
    + intros c op Hop. rewrite lookup_fmap in Hop.
      destruct (wl pm !! c) as [e|] eqn:He; [|done].
      simpl in Hop. injection Hop as <-. eauto.
Qed.

Lemma stopPeerHandler_peers_inv (p : peerID) (pm : WantManager) (tr : Trace) :
  peers_inv pm -> peers_inv (stopPeerHandler p pm tr).1.
Proof.
  intros [Hps Hret]. unfold stopPeerHandler.
  destruct (peers pm !! p) as [mq|] eqn:Hp; [|done].
  destruct (0 <? _).
  - split; [|done]. simpl. apply map_Forall_insert_2; [|done].
    destruct (Hps _ _ Hp) as (H1 & H2 & H3 & H4). done.
  - split; simpl.
    + by apply map_Forall_delete.
    + constructor; done.
Qed.

Lemma exec_peers_inv (a : Action) (s s' : WantManager * Trace) :
  gauge_inv s.1 ->
  peers_inv s.1 ->
  exec a s = Returned s' ->
  peers_inv s'.1.
Proof.
  destruct s as [pm tr]. cbn [fst]. intros Hg Hinv Hex.
  destruct a; simpl in Hex.
  - unfold WantBlocks, addEntries in Hex.
    destruct c;
      [destruct (length (incoming pm) <? chan_cap)%nat
      |destruct (ctx_done pm)|destruct (ctx_Done ctx)];
      simpl in Hex; simplify_eq; simpl; done.
  - unfold CancelWants, addEntries in Hex.
    destruct c;
      [destruct (length (incoming pm) <? chan_cap)%nat
      |destruct (ctx_done pm)|];
      simpl in Hex; simplify_eq; simpl; done.
  - unfold Connected in Hex.
    destruct c;
      [destruct (length (connect pm) <? chan_cap)%nat|destruct (ctx_done pm)];
      simpl in Hex; simplify_eq; simpl; done.
  - unfold Disconnected in Hex.
    destruct c;
      [destruct (length (disconnect pm) <? chan_cap)%nat|destruct (ctx_done pm)];
      simpl in Hex; simplify_eq; simpl; done.
  - unfold ConnectedPeers in Hex.
    destruct (run_returned pm); simpl in Hex; simplify_eq; simpl; done.
  - by simplify_eq.
  - by simplify_eq.
  - unfold Run_iter in Hex. destruct (run_returned pm); [discriminate|].
    destruct c.
    + destruct (incoming pm) as [|ws rest] eqn:Hin; simplify_eq.
      by apply Run_incoming_peers_inv.
    + simplify_eq. by apply Run_tick_peers_inv.
    + destruct (connect pm) as [|p rest]; simplify_eq.
      apply startPeerHandler_peers_inv; [|done]. by destruct Hg.
    + destruct (disconnect pm) as [|p rest]; simplify_eq.
      by apply stopPeerHandler_peers_inv.
    + by simplify_eq.
    + destruct (ctx_done pm); simplify_eq. simpl. done.
  - destruct (peers pm !! p) as [mq|] eqn:Hp; [|discriminate].
    destruct (runQueue_iter fuel (ctx_done pm) c mq tr) as [[mq' tr1]| | |] eqn:Hrun;
      simpl in Hex; simplify_eq.
    apply runQueue_iter_frame in Hrun as (H1 & H2 & _ & H4 & Hout).
    destruct Hinv as [Hps Hret]. split; [|done]. simpl.
    apply map_Forall_insert_2; [|done].
    destruct (Hps _ _ Hp) as (G1 & G2 & G3 & G4).
    unfold queue_ok. rewrite H1, H2, H4. repeat split; try done.
    + by destruct (G3 _ _ H).
    + by destruct (G3 _ _ H).
    + unfold out_entries in *. destruct Hout as [->| ->]; [done|].
      intros c0 op Hop. by rewrite lookup_empty in Hop.
  - destruct (retired pm !! i) as [mq|] eqn:Hi; [|discriminate].
    destruct (runQueue_iter fuel (ctx_done pm) c mq tr) as [[mq' tr1]| | |] eqn:Hrun;
      simpl in Hex; simplify_eq.
    apply runQueue_iter_frame in Hrun as (_ & _ & _ & H4 & _).
    destruct Hinv as [Hps Hret]. split; [done|]. simpl.
    apply Forall_insert; [done|].
    rewrite H4. exact (Forall_lookup_1 _ _ _ _ Hret Hi).
Qed.

Lemma reachable_peers_inv (s : WantManager * Trace) : reachable s -> peers_inv s.1.
Proof.
  intros [acts Hacts].
  assert (Hgen : forall acts s0 s1,
             gauge_inv s0.1 -> peers_inv s0.1 -> execs acts s0 = Returned s1 ->
             peers_inv s1.1).
  { clear. intros acts. induction acts as [|a acts IH]; intros s0 s1 Hg Hinv Hex;
      cbn [execs] in Hex.
    - by simplify_eq.
    - destruct (exec a s0) as [s0'| | |] eqn:Ha; cbn [bind] in Hex; try discriminate.
      eapply IH; [| |exact Hex].
      + eapply exec_gauge_inv; eauto.
      + eapply exec_peers_inv; eauto. }
  eapply Hgen; [| |exact Hacts].
  - apply (reachable_gauge_inv (NewWantManager, [])). by exists [].
  - split; [apply map_Forall_empty|constructor].
Qed.

(** X8. In every state the system can reach a queue is registered under the
    id of its own peer with its [done] channel open, and the [done] channel
    of every retired queue is closed: [stopPeerHandler] closes a [done]
    channel once and never one that is closed already. *)
Theorem registered_queues_are_open
    (s : WantManager * Trace) (Hreach : reachable s) :
  (forall p mq, peers s.1 !! p = Some mq -> mq_p mq = p /\ mq_done mq = false)
  /\ (forall mq, mq ∈ retired s.1 -> mq_done mq = true).
Proof.
  destruct (reachable_peers_inv s Hreach) as [Hps Hret]. split.
  - intros p mq Hp. by destruct (Hps _ _ Hp) as (? & ? & _).
  - intros mq Hin. rewrite Forall_forall in Hret. by apply Hret.
Qed.

(** X9. In every state the system can reach the pending message of a
    registered queue agrees with its mirror: a cancel waits to be sent only
    for an id the mirror no longer holds, a want only for an id the mirror
    holds; and every entry of a mirror is stored under its own id with at
    least one reference. *)
Theorem pending_message_agrees_with_mirror
    (s : WantManager * Trace) (Hreach : reachable s) :
  forall p mq,
    peers s.1 !! p = Some mq ->
    wl_ok (mq_wl mq)
    /\ (forall c, out_entries mq !! c = Some OpCancel -> mq_wl mq !! c = None)
    /\ (forall c pr, out_entries mq !! c = Some (OpWant pr) -> is_Some (mq_wl mq !! c)).
Proof.
  destruct (reachable_peers_inv s Hreach) as [Hps _].
  intros p mq Hp. destruct (Hps _ _ Hp) as (_ & _ & Hok & Hpend).
  split; [done|]. split.
  - intros c Hc. exact (Hpend c OpCancel Hc).
  - intros c pr Hc. exact (Hpend c (OpWant pr) Hc).
Qed.

(** ** What a batch does to the mirrors and the pending messages *)

Lemma fold_wants_active {S : Type} (f : S -> bsmsgEntry -> S) (pi : S -> Wantlist)
    (P : bsmsgEntry -> Prop) :
  (forall st e,
      P e -> wl_ok (pi st) ->
      wl_ok (pi (f st e))
      /\ 0 < wl_refcnt (pi (f st e)) (e_Cid (EntryOf e))
      /\ (forall c, 0 < wl_refcnt (pi st) c -> 0 < wl_refcnt (pi (f st e)) c)) ->
  forall es st,
    Forall P es -> wl_ok (pi st) ->
    wl_ok (pi (foldl f st es))
    /\ (forall c, 0 < wl_refcnt (pi st) c -> 0 < wl_refcnt (pi (foldl f st es)) c)
    /\ (forall e, e ∈ es -> 0 < wl_refcnt (pi (foldl f st es)) (e_Cid (EntryOf e))).
Proof.
  intros Hstep es. induction es as [|e es IH]; intros st Hes Hok; cbn [foldl].
  - split; [done|]. split; [done|]. intros e He. by apply elem_of_nil in He.
  - apply Forall_cons in Hes as [He Hes].
    destruct (Hstep st e He Hok) as (Hok1 & Hact1 & Hmono1).
    destruct (IH (f st e) Hes Hok1) as (Hok' & Hmono' & Hall').
    split; [done|]. split; [by eauto|].
    intros e' He'. apply elem_of_cons in He' as [->|He']; eauto.
Qed.

Lemma Run_apply_want_active (st : Wantlist * Z) (e : bsmsgEntry) :
  is_want e -> wl_ok st.1 ->
  wl_ok (Run_apply_entry st e).1
  /\ 0 < wl_refcnt (Run_apply_entry st e).1 (e_Cid (EntryOf e))
  /\ (forall c, 0 < wl_refcnt st.1 c -> 0 < wl_refcnt (Run_apply_entry st e).1 c).
Proof.
  destruct st as [w g]. intros [Hc Hrc] Hok. simpl in Hok.
  unfold Run_apply_entry, wl_AddEntry, wl_refcnt. rewrite Hc.
  destruct (w !! e_Cid (EntryOf e)) as [ex|] eqn:Hw; simpl.
  - destruct (Hok _ _ Hw) as [Hcid Hpos].
    split; [apply map_Forall_insert_2; [simpl; split; [done|lia]|done]|].
    rewrite lookup_insert_eq. simpl. split; [lia|].
    intros c Hcpos. destruct (decide (e_Cid (EntryOf e) = c)) as [<-|Hne].
    + rewrite lookup_insert_eq. simpl. lia.
    + by rewrite lookup_insert_ne.
  - split; [apply map_Forall_insert_2; [simpl; split; [done|lia]|done]|].
    rewrite lookup_insert_eq. split; [lia|].
    intros c Hcpos. destruct (decide (e_Cid (EntryOf e) = c)) as [<-|Hne].
    + rewrite Hw in Hcpos. lia.
    + by rewrite lookup_insert_ne.
Qed.

Lemma addMessage_want_active (st : Wantlist * BitSwapMessage * bool) (e : bsmsgEntry) :
  Cancel e = false -> wl_ok st.1.1 ->
  wl_ok (addMessage_entry st e).1.1
  /\ 0 < wl_refcnt (addMessage_entry st e).1.1 (e_Cid (EntryOf e))
  /\ (forall c, 0 < wl_refcnt st.1.1 c -> 0 < wl_refcnt (addMessage_entry st e).1.1 c).
Proof.
  destruct st as [[w out] work]. intros Hc Hok. simpl in Hok.
  unfold addMessage_entry, wl_Add, wl_AddEntry, wl_refcnt. rewrite Hc. simpl.
  destruct (w !! e_Cid (EntryOf e)) as [ex|] eqn:Hw; simpl.
  - destruct (Hok _ _ Hw) as [Hcid Hpos].
    destruct (RefCnt ex <=? 0) eqn:Hz; [apply Z.leb_le in Hz; lia|]. simpl.
    split; [apply map_Forall_insert_2; [simpl; split; [done|lia]|done]|].
    rewrite lookup_insert_eq. simpl. split; [lia|].
    intros c Hcpos. destruct (decide (e_Cid (EntryOf e) = c)) as [<-|Hne].
    + rewrite lookup_insert_eq. simpl. lia.
    + by rewrite lookup_insert_ne.
  - split; [apply map_Forall_insert_2; [simpl; split; [done|lia]|done]|].
    rewrite lookup_insert_eq. simpl. split; [lia|].
    intros c Hcpos. destruct (decide (e_Cid (EntryOf e) = c)) as [<-|Hne].
    + rewrite Hw in Hcpos. lia.
    + by rewrite lookup_insert_ne.
Qed.

(** A want of an id that the mirror holds changes neither what the message
    says about ids the mirror holds nor a raised flag [work]. *)
Lemma addMessage_want_keeps (c : Cid) (es : list bsmsgEntry) :
  forall (w : Wantlist) (out : BitSwapMessage) (pr : Z),
    Forall (fun e => Cancel e = false) es -> wl_ok w ->
    is_Some (w !! c) ->
    m_wantlist out !! c = Some (OpWant pr) ->
    let r := foldl addMessage_entry (w, out, true) es in
    m_wantlist r.1.2 !! c = Some (OpWant pr) /\ r.2 = true.
Proof.
  induction es as [|e es IH]; intros w out pr Hes Hok Hin Hout; cbn [foldl]; [done|].
  apply Forall_cons in Hes as [He Hes].
  pose proof (addMessage_want_active (w, out, true) e He Hok) as (Hok1 & _ & Hmono).
  pose proof He as Hc.
  assert (Hstep : exists w1 out1,
             addMessage_entry (w, out, true) e = (w1, out1, true)
             /\ is_Some (w1 !! c) /\ m_wantlist out1 !! c = Some (OpWant pr)).
  { unfold addMessage_entry, wl_Add, wl_AddEntry. rewrite Hc. simpl.
    destruct (w !! e_Cid (EntryOf e)) as [ex|] eqn:Hw; simpl.
    - destruct (Hok _ _ Hw) as [_ Hpos].
      destruct (RefCnt ex <=? 0) eqn:Hz; [apply Z.leb_le in Hz; lia|].
      eexists _, _. split; [reflexivity|]. split; [|done].
      destruct (decide (e_Cid (EntryOf e) = c)) as [<-|Hne].
      + rewrite lookup_insert_eq. eauto.
      + by rewrite lookup_insert_ne.
    - assert (Hne : e_Cid (EntryOf e) <> c).
      { intros Heq. rewrite Heq in Hw. rewrite Hw in Hin. by destruct Hin. }
      eexists _, _. split; [reflexivity|]. simpl.
      rewrite !lookup_insert_ne by done. done. }
  destruct Hstep as (w1 & out1 & Hrun & Hin1 & Hout1).
  rewrite Hrun in *. by apply IH.
Qed.

Lemma addMessage_new_want_pending (c : Cid) (es : list bsmsgEntry) :
  forall (w : Wantlist) (out : BitSwapMessage) (work : bool),
    Forall (fun e => Cancel e = false) es -> wl_ok w ->
    w !! c = None ->
    c ∈ (fun e => e_Cid (EntryOf e)) <$> es ->
    let r := foldl addMessage_entry (w, out, work) es in
    (exists pr, m_wantlist r.1.2 !! c = Some (OpWant pr)) /\ r.2 = true.
Proof.
  induction es as [|e es IH]; intros w out work Hes Hok Hnone Hin; cbn [foldl].
  - by apply elem_of_nil in Hin.
  - pose proof Hes as Hes0. apply Forall_cons in Hes as [He Hes].
    pose proof (addMessage_want_active (w, out, work) e He Hok) as (Hok1 & _ & _).
    pose proof He as Hc.
    destruct (decide (e_Cid (EntryOf e) = c)) as [Heq|Hne].
    + assert (Hrun : addMessage_entry (w, out, work) e
                     = (<[c := mkEntry c (Priority (EntryOf e)) 1]> w,
                        msg_AddEntry c (Priority (EntryOf e)) out, true)).
      { unfold addMessage_entry, wl_Add, wl_AddEntry. rewrite Hc, Heq. simpl.
        by rewrite Hnone. }
      rewrite Hrun in *.
      assert (Hin1 : is_Some (<[c := mkEntry c (Priority (EntryOf e)) 1]> w !! c))
        by (rewrite lookup_insert_eq; eauto).
      assert (Hout1 : m_wantlist (msg_AddEntry c (Priority (EntryOf e)) out) !! c
                      = Some (OpWant (Priority (EntryOf e))))
        by (simpl; apply lookup_insert_eq).
      destruct (addMessage_want_keeps c es _ _ _ Hes Hok1 Hin1 Hout1) as [Hout Hwork].
      split; [eauto|done].
    + rewrite fmap_cons in Hin. apply elem_of_cons in Hin as [Hin|Hin]; [congruence|].
      assert (Hnone1 : (addMessage_entry (w, out, work) e).1.1 !! c = None).
      { unfold addMessage_entry, wl_Add, wl_AddEntry. rewrite Hc. simpl.
        destruct (w !! e_Cid (EntryOf e)) as [ex|]; simpl.
        - destruct (RefCnt ex <=? 0); simpl; by rewrite lookup_insert_ne.
        - by rewrite lookup_insert_ne. }
      destruct (addMessage_entry (w, out, work) e) as [[w1 out1] work1].
      by apply IH.
Qed.

Lemma Run_incoming_wants
    (ws : wantSet) (pm : WantManager) (tr : Trace)
    (Htargets : targets ws = [])
    (Hwants : Forall is_want (entries ws))
    (Hwl : wl_ok (wl pm))
    (Hmirrors : map_Forall (fun _ mq => wl_ok (mq_wl mq)) (peers pm)) :
  let pm' := (Run_incoming ws pm tr).1 in
  (forall e, e ∈ entries ws -> 0 < wl_refcnt (wl pm') (e_Cid (EntryOf e)))
  /\ (forall p mq,
         peers pm !! p = Some mq ->
         exists mq',
           peers pm' !! p = Some mq'
           /\ (forall e, e ∈ entries ws -> 0 < wl_refcnt (mq_wl mq') (e_Cid (EntryOf e)))
           /\ (forall e, e ∈ entries ws ->
                 mq_wl mq !! e_Cid (EntryOf e) = None ->
                 (exists pr, out_entries mq' !! e_Cid (EntryOf e) = Some (OpWant pr))
                 /\ mq_work mq' = true))
  /\ (forall p, peers pm !! p = None -> peers pm' !! p = None).
Proof.
  assert (Hwants' : Forall (fun e => Cancel e = false) (entries ws)).
  { eapply Forall_impl; [exact Hwants|]. by intros e [? ?]. }
  unfold Run_incoming, Run_broadcast. rewrite Htargets. cbn [length Nat.eqb].
  cbn [fst snd]. split; [|split].
  - intros e He. simpl.
    destruct (fold_wants_active Run_apply_entry fst is_want Run_apply_want_active
                (entries ws) (wl pm, wantlistGauge pm) Hwants Hwl) as (_ & _ & Hall).
    by apply Hall.
  - intros p mq Hp. simpl. rewrite lookup_fmap, Hp. simpl.
    eexists. split; [reflexivity|].
    pose proof (Hmirrors _ _ Hp) as Hok. simpl in Hok.
    unfold addMessage, out_entries.
    set (out0 := match mq_out mq with None => msg_New false | Some m => m end).
    destruct (fold_wants_active addMessage_entry (fun st => st.1.1) _
                addMessage_want_active
                (entries ws) (mq_wl mq, out0, false) Hwants' Hok) as (_ & _ & Hall).
    split.
    + intros e He. specialize (Hall e He).
      by destruct (foldl addMessage_entry (mq_wl mq, out0, false) (entries ws))
        as [[w out] work].
    + intros e He Hnone.
      assert (Hin : e_Cid (EntryOf e) ∈ (fun e => e_Cid (EntryOf e)) <$> entries ws).
      { apply list_elem_of_fmap. by exists e. }
      destruct (addMessage_new_want_pending (e_Cid (EntryOf e)) (entries ws)
                  (mq_wl mq) out0 false Hwants' Hok Hnone Hin) as [Hout Hwork].
      destruct (foldl addMessage_entry (mq_wl mq, out0, false) (entries ws))
        as [[w out] work].
      simpl in *. by rewrite Hwork.
  - intros p Hp. simpl. by rewrite lookup_fmap, Hp.
Qed.

(** X10. When [Run] takes a batch of wants without targets, every id of
    the batch is afterwards held by the process-wide list and by the mirror
    of every registered peer, and no peer is added or dropped; a peer whose
    mirror did not hold an id of the batch has a want for it in its pending
    message and a work signal. *)
Theorem Run_incoming_broadcast_reaches_all
    (ws : wantSet) (pm : WantManager) (tr : Trace)
    (Htargets : targets ws = [])
    (Hwants : Forall is_want (entries ws))
    (Hwl : wl_ok (wl pm))
    (Hmirrors : map_Forall (fun _ mq => wl_ok (mq_wl mq)) (peers pm)) :
  let pm' := (Run_incoming ws pm tr).1 in
  (forall e, e ∈ entries ws -> 0 < wl_refcnt (wl pm') (e_Cid (EntryOf e)))
  /\ (forall p mq,
         peers pm !! p = Some mq ->
         exists mq',
           peers pm' !! p = Some mq'
           /\ (forall e, e ∈ entries ws -> 0 < wl_refcnt (mq_wl mq') (e_Cid (EntryOf e)))
           /\ (forall e, e ∈ entries ws ->
                 mq_wl mq !! e_Cid (EntryOf e) = None ->
                 (exists pr, out_entries mq' !! e_Cid (EntryOf e) = Some (OpWant pr))
                 /\ mq_work mq' = true))
  /\ (forall p, peers pm !! p = None -> peers pm' !! p = None).
Proof. by apply Run_incoming_wants. Qed.

Lemma addMessage_wants_provenance (es : list bsmsgEntry) :
  forall (w : Wantlist) (out : BitSwapMessage) (work : bool),
    Forall (fun e => Cancel e = false) es -> wl_ok w ->
    let r := foldl addMessage_entry (w, out, work) es in
    Full r.1.2 = Full out
    /\ m_blocks r.1.2 = m_blocks out
    /\ (forall c op,
           m_wantlist r.1.2 !! c = Some op ->
           m_wantlist out !! c = Some op
           \/ (w !! c = None
               /\ exists e, e ∈ es /\ e_Cid (EntryOf e) = c
                            /\ op = OpWant (Priority (EntryOf e)))).
Proof.
  induction es as [|e es IH]; intros w out work Hes Hok; cbn [foldl].
  - split; [done|]. split; [done|]. intros c op Hop. by left.
  - apply Forall_cons in Hes as [Hc Hes].
    pose proof (addMessage_want_active (w, out, work) e Hc Hok) as (Hok1 & _ & _).
    assert (Hstep : exists w1 out1 work1,
               addMessage_entry (w, out, work) e = (w1, out1, work1)
               /\ Full out1 = Full out /\ m_blocks out1 = m_blocks out
               /\ (forall c, w1 !! c = None -> w !! c = None)
               /\ (forall c op, m_wantlist out1 !! c = Some op ->
                     m_wantlist out !! c = Some op
                     \/ (w !! c = None /\ e_Cid (EntryOf e) = c
                         /\ op = OpWant (Priority (EntryOf e))))).
    { unfold addMessage_entry, wl_Add, wl_AddEntry. rewrite Hc. simpl.
      destruct (w !! e_Cid (EntryOf e)) as [ex|] eqn:Hw; simpl.
      - destruct (Hok _ _ Hw) as [_ Hpos].
        destruct (RefCnt ex <=? 0) eqn:Hz; [apply Z.leb_le in Hz; lia|].
        eexists _, _, _. split; [reflexivity|]. split; [done|]. split; [done|].
        split; [|by left].
        intros c Hnone. destruct (decide (e_Cid (EntryOf e) = c)) as [<-|Hne].
        + by rewrite lookup_insert_eq in Hnone.
        + by rewrite lookup_insert_ne in Hnone.
      - eexists _, _, _. split; [reflexivity|]. simpl. split; [done|]. split; [done|].
        split.
        + intros c Hnone. destruct (decide (e_Cid (EntryOf e) = c)) as [<-|Hne].
          * by rewrite lookup_insert_eq in Hnone.
          * by rewrite lookup_insert_ne in Hnone.
        + intros c op Hop. destruct (decide (e_Cid (EntryOf e) = c)) as [<-|Hne].
          * rewrite lookup_insert_eq in Hop. injection Hop as <-. by right.
          * rewrite lookup_insert_ne in Hop by done. by left. }
    destruct Hstep as (w1 & out1 & work1 & Hrun & HF & HB & Hdom & Hprov).
    rewrite Hrun in *. simpl in Hok1.
    destruct (IH w1 out1 work1 Hes Hok1) as (HF' & HB' & Hprov').
    split; [congruence|]. split; [congruence|].
    intros c op Hop. destruct (Hprov' c op Hop) as [Hold|(Hnone & e' & He' & Hcid & ->)].
    + destruct (Hprov c op Hold) as [?|(? & ? & ->)]; [by left|].
      right. split; [done|]. exists e. split; [by left|done].
    + right. split; [by apply Hdom|]. exists e'. split; [by right|done].
Qed.

(** X11. What the timer of [Run] leaves pending for a registered peer: a
    full message without blocks that holds a want, with the priority of the
    process-wide list, for exactly the ids of the process-wide list that the
    peer's mirror did not hold. Whatever was pending before, wants and
    cancels alike, is dropped. *)
Theorem Run_tick_pending_is_what_mirror_lacks
    (pm : WantManager) (p : peerID) (mq : msgQueue)
    (Hp : peers pm !! p = Some mq)
    (Hkeys : wl_keys (wl pm))
    (Hmirror : wl_ok (mq_wl mq)) :
  exists mq' out,
    peers (Run_tick pm) !! p = Some mq'
    /\ mq_out mq' = Some out
    /\ Full out = true
    /\ m_blocks out = []
    /\ (forall c op,
           m_wantlist out !! c = Some op
           <-> (mq_wl mq !! c = None
                /\ exists e, wl pm !! c = Some e /\ op = OpWant (Priority e))).
Proof.
  unfold Run_tick. simpl. rewrite lookup_fmap, Hp. simpl.
  unfold addMessage. simpl.
  set (es := map (mkMsgEntry false) (wl_Entries (wl pm))).
  assert (Hes : Forall (fun e => Cancel e = false) es).
  { apply Forall_forall. intros e He. apply list_elem_of_fmap in He as (e0 & -> & _). done. }
  assert (Hin : forall e, e ∈ es <-> wl pm !! e_Cid (EntryOf e) = Some (EntryOf e)
                                     /\ Cancel e = false).
  { intros e. unfold es, wl_Entries. split.
    - intros He. apply list_elem_of_fmap in He as (e0 & -> & He0).
      apply list_elem_of_fmap in He0 as ([k e1] & -> & Hk).
      apply elem_of_map_to_list in Hk. simpl.
      pose proof (Hkeys _ _ Hk) as Hcid. simpl in Hcid. by rewrite Hcid.
    - intros [Hw Hc]. apply list_elem_of_fmap. exists (EntryOf e).
      split; [destruct e; simpl in *; by rewrite Hc|].
      apply list_elem_of_fmap. exists (e_Cid (EntryOf e), EntryOf e).
      split; [done|]. by apply elem_of_map_to_list. }
  pose proof (addMessage_wants_provenance es (mq_wl mq) (msg_New true) false Hes Hmirror)
    as (HF & HB & Hprov).
  assert (Hnew : forall c e, wl pm !! c = Some e -> mq_wl mq !! c = None ->
             exists pr, m_wantlist (foldl addMessage_entry (mq_wl mq, msg_New true, false) es).1.2
                        !! c = Some (OpWant pr)).
  { intros c e Hw Hnone.
    destruct (addMessage_new_want_pending c es (mq_wl mq) (msg_New true) false
                Hes Hmirror Hnone) as [Hout _]; [|exact Hout].
    apply list_elem_of_fmap. exists (mkMsgEntry false e). simpl.
    pose proof (Hkeys _ _ Hw) as Hcid. simpl in Hcid.
    split; [done|]. apply Hin. simpl. by rewrite Hcid. }
  destruct (foldl addMessage_entry (mq_wl mq, msg_New true, false) es)
    as [[w out] work]. simpl in *.
  eexists _, out. split; [reflexivity|]. simpl.
  split; [done|]. split; [done|]. split; [done|].
  assert (Hfwd : forall c op, m_wantlist out !! c = Some op ->
             mq_wl mq !! c = None
             /\ exists e, wl pm !! c = Some e /\ op = OpWant (Priority e)).
  { intros c op Hop. destruct (Hprov c op Hop) as [Hold|(Hnone & e & He & Hcid & ->)].
    - by rewrite lookup_empty in Hold.
    - split; [done|]. apply Hin in He as [Hw _]. rewrite Hcid in Hw. eauto. }
  intros c op. split; [apply Hfwd|].
  intros (Hnone & e & Hw & ->).
  destruct (Hnew c e Hw Hnone) as [pr Hpr].
  destruct (Hfwd _ _ Hpr) as (_ & e' & Hw' & Heq).
  rewrite Hw in Hw'. injection Hw' as <-. by rewrite Hpr, Heq.
Qed.

Lemma addMessage_entry_work (w : Wantlist) (out : BitSwapMessage) (work : bool)
    (e : bsmsgEntry) :
  addMessage_entry (w, out, work) e
  = ((addMessage_entry (w, out, false) e).1,
     work || (addMessage_entry (w, out, false) e).2).
Proof.
  unfold addMessage_entry.
  destruct (Cancel e).
  - destruct (wl_Remove _ _) as [w' []]; simpl; by rewrite ?orb_true_r, ?orb_false_r.
  - destruct (wl_Add _ _ _) as [w' []]; simpl; by rewrite ?orb_true_r, ?orb_false_r.
Qed.

Lemma addMessage_fold_work (es : list bsmsgEntry) :
  forall (w : Wantlist) (out : BitSwapMessage) (work : bool),
    foldl addMessage_entry (w, out, work) es
    = ((foldl addMessage_entry (w, out, false) es).1,
       work || (foldl addMessage_entry (w, out, false) es).2).
Proof.
  induction es as [|e es IH]; intros w out work; cbn [foldl].
  - simpl. by rewrite orb_false_r.
  - rewrite (addMessage_entry_work w out work).
    destruct (addMessage_entry (w, out, false) e) as [[w1 out1] b1]. simpl.
    rewrite (IH w1 out1 (work || b1)), (IH w1 out1 b1). simpl.
    by rewrite orb_assoc.
Qed.

(** X12. Merging two batches into a queue one after the other is merging
    them as one batch: the mirror, the pending message and the work signal
    come out the same. *)
Theorem addMessage_app (es1 es2 : list bsmsgEntry) (mq : msgQueue) :
  addMessage (es1 ++ es2) mq = addMessage es2 (addMessage es1 mq).
Proof.
  unfold addMessage. rewrite foldl_app.
  set (out0 := match mq_out mq with None => msg_New false | Some m => m end).
  destruct (foldl addMessage_entry (mq_wl mq, out0, false) es1) as [[w1 out1] b1].
  simpl. rewrite (addMessage_fold_work es2 w1 out1 b1).
  destruct (foldl addMessage_entry (w1, out1, false) es2) as [[w2 out2] b2]. simpl.
  destruct b1, b2; reflexivity.
Qed.

Lemma Run_apply_cancel_unknown (es : list bsmsgEntry) (w : Wantlist) (g : Z) :
  Forall (fun e => Cancel e = true /\ w !! e_Cid (EntryOf e) = None) es ->
  foldl Run_apply_entry (w, g) es = (w, g).
Proof.
  induction es as [|e es IH]; intros Hes; cbn [foldl]; [done|].
  apply Forall_cons in Hes as [[Hc Hnone] Hes].
  unfold Run_apply_entry at 2, wl_Remove. rewrite Hc, Hnone. by apply IH.
Qed.

Lemma addMessage_cancel_unknown (es : list bsmsgEntry) (w : Wantlist)
    (out : BitSwapMessage) (work : bool) :
  Forall (fun e => Cancel e = true /\ w !! e_Cid (EntryOf e) = None) es ->
  foldl addMessage_entry (w, out, work) es = (w, out, work).
Proof.
  induction es as [|e es IH]; intros Hes; cbn [foldl]; [done|].
  apply Forall_cons in Hes as [[Hc Hnone] Hes].
  unfold addMessage_entry at 2, wl_Remove. rewrite Hc, Hnone. by apply IH.
Qed.

(** X13. A batch that cancels ids the process-wide list does not hold
    leaves the list and the gauge as they are; a registered peer whose
    mirror does not hold them either keeps its mirror, gets no work signal
    and nothing added to its pending message (an empty one is made when its
    slot was nil). *)
Theorem Run_incoming_cancel_unknown
    (ws : wantSet) (pm : WantManager) (tr : Trace)
    (Htargets : targets ws = [])
    (Hcancels : Forall (fun e => Cancel e = true /\ wl pm !! e_Cid (EntryOf e) = None)
                       (entries ws)) :
  let r := Run_incoming ws pm tr in
  wl r.1 = wl pm
  /\ wantlistGauge r.1 = wantlistGauge pm
  /\ r.2 = tr
  /\ (forall p mq,
         peers pm !! p = Some mq ->
         Forall (fun e => mq_wl mq !! e_Cid (EntryOf e) = None) (entries ws) ->
         exists mq',
           peers r.1 !! p = Some mq'
           /\ mq' = set_out (Some (default (msg_New false) (mq_out mq))) mq
           /\ out_entries mq' = out_entries mq).
Proof.
  unfold Run_incoming, Run_broadcast. rewrite Htargets. cbn [length Nat.eqb fst snd].
  rewrite (Run_apply_cancel_unknown _ _ _ Hcancels). simpl.
  split; [done|]. split; [done|]. split; [done|].
  intros p mq Hp Hmirror. rewrite lookup_fmap, Hp. simpl.
  eexists. split; [reflexivity|].
  unfold addMessage. rewrite addMessage_cancel_unknown.
  - unfold set_out, out_entries. simpl. destruct (mq_out mq); simpl; done.
  - apply Forall_forall. intros e He. split.
    + rewrite Forall_forall in Hcancels. by destruct (Hcancels e He).
    + rewrite Forall_forall in Hmirror. by apply Hmirror.
Qed.

(** ** Notifications and submissions, end to end *)

(** X14. [Connected] and [Disconnected] either put the peer at the end of
    their channel or, when [pm.ctx] is cancelled, may return without having
    told the loop anything; they change nothing else, and they block
    exactly while their channel is full and [pm.ctx] is not cancelled. *)
Theorem Connected_Disconnected_outcomes (p : peerID) (c : NotifyCase) (pm : WantManager) :
  match Connected p c pm with
  | Returned pm' =>
      (c = SendNotify /\ (length (connect pm) < chan_cap)%nat
       /\ pm' = set_connect (connect pm ++ [p]) pm)
      \/ (c = NotifyPmDone /\ ctx_done pm = true /\ pm' = pm)
  | Blocked => True
  | Panicked => False
  | OutOfFuel => False
  end
  /\ match Disconnected p c pm with
     | Returned pm' =>
         (c = SendNotify /\ (length (disconnect pm) < chan_cap)%nat
          /\ pm' = set_disconnect (disconnect pm ++ [p]) pm)
         \/ (c = NotifyPmDone /\ ctx_done pm = true /\ pm' = pm)
     | Blocked => True
     | Panicked => False
     | OutOfFuel => False
     end
  /\ (blocks (fun c' => Connected p c' pm)
      <-> (chan_cap <= length (connect pm))%nat /\ ctx_done pm = false)
  /\ (blocks (fun c' => Disconnected p c' pm)
      <-> (chan_cap <= length (disconnect pm))%nat /\ ctx_done pm = false).
Proof.
  unfold blocks, Connected, Disconnected. split; [|split; [|split]].
  - destruct c.
    + destruct (length (connect pm) <? chan_cap)%nat eqn:Hroom; [|exact I].
      apply Nat.ltb_lt in Hroom. by left.
    + destruct (ctx_done pm); [|exact I]. by right.
  - destruct c.
    + destruct (length (disconnect pm) <? chan_cap)%nat eqn:Hroom; [|exact I].
      apply Nat.ltb_lt in Hroom. by left.
    + destruct (ctx_done pm); [|exact I]. by right.
  - split.
    + intros Hb. split.
      * specialize (Hb SendNotify). simpl in Hb.
        destruct (length (connect pm) <? chan_cap)%nat eqn:Hroom; [discriminate|].
        by apply Nat.ltb_ge in Hroom.
      * specialize (Hb NotifyPmDone). simpl in Hb. by destruct (ctx_done pm).
    + intros [Hfull Hd] c'. destruct c'.
      * apply Nat.ltb_ge in Hfull. by rewrite Hfull.
      * by rewrite Hd.
  - split.
    + intros Hb. split.
      * specialize (Hb SendNotify). simpl in Hb.
        destruct (length (disconnect pm) <? chan_cap)%nat eqn:Hroom; [discriminate|].
        by apply Nat.ltb_ge in Hroom.
      * specialize (Hb NotifyPmDone). simpl in Hb. by destruct (ctx_done pm).
    + intros [Hfull Hd] c'. destruct c'.
      * apply Nat.ltb_ge in Hfull. by rewrite Hfull.
      * by rewrite Hd.
Qed.

Lemma addEntries_loop_wants (ks : list Cid) :
  forall i, Forall is_want (addEntries_loop false i ks)
            /\ (fun e => e_Cid (EntryOf e)) <$> addEntries_loop false i ks = ks.
Proof.
  induction ks as [|k ks IH]; intros i; [done|].
  destruct (IH (i + 1)) as [Hw Hc]. cbn [addEntries_loop]. split.
  - constructor; [done|exact Hw].
  - rewrite fmap_cons. cbn [EntryOf e_Cid]. by rewrite Hc.
Qed.

Lemma Run_incoming_no_targets_trace (ws : wantSet) (pm : WantManager) (tr : Trace) :
  targets ws = [] -> (Run_incoming ws pm tr).2 = tr.
Proof. intros Hts. unfold Run_incoming, Run_broadcast. by rewrite Hts. Qed.

(** X15. Wants handed over by [WantBlocks] while [incoming] is empty and
    taken by the next turn of [Run] are applied as a whole: every id given
    is then held by the process-wide list and by the mirror of every
    registered peer, and [incoming] is empty again. *)
Theorem WantBlocks_then_Run_registers_wants
    (ctx : Context) (ks : list Cid) (pm : WantManager) (tr : Trace)
    (Hempty : incoming pm = [])
    (Halive : run_returned pm = false)
    (Hwl : wl_ok (wl pm))
    (Hmirrors : map_Forall (fun _ mq => wl_ok (mq_wl mq)) (peers pm)) :
  exists pm1 tr1 pm2 tr2,
    WantBlocks ctx ks SendIncoming pm tr = Returned (pm1, tr1)
    /\ Run_iter RIncoming pm1 tr1 = Returned (pm2, tr2)
    /\ incoming pm2 = []
    /\ tr2 = Log Info "want blocks: %s" :: tr
    /\ (forall k, k ∈ ks ->
          0 < wl_refcnt (wl pm2) k
          /\ forall p mq,
               peers pm !! p = Some mq ->
               exists mq', peers pm2 !! p = Some mq' /\ 0 < wl_refcnt (mq_wl mq') k).
Proof.
  set (ws := mkWantSet (addEntries_loop false 0 ks) []).
  destruct (addEntries_loop_wants ks 0) as [Hwants Hcids].
  set (tr1 := Log Info "want blocks: %s" :: tr).
  set (pm1 := set_incoming [ws] pm).
  set (pm0 := set_incoming [] pm1).
  assert (Hsub : WantBlocks ctx ks SendIncoming pm tr = Returned (pm1, tr1)).
  { unfold WantBlocks, addEntries. rewrite Hempty. reflexivity. }
  assert (Hturn : Run_iter RIncoming pm1 tr1 = Returned (Run_incoming ws pm0 tr1)).
  { unfold Run_iter, pm1. simpl. by rewrite Halive. }
  assert (Hwl0 : wl_ok (wl pm0)) by done.
  assert (Hm0 : map_Forall (fun _ mq => wl_ok (mq_wl mq)) (peers pm0)) by done.
  pose proof (Run_incoming_wants ws pm0 tr1 eq_refl Hwants Hwl0 Hm0) as (Hlist & Hpeers & _).
  pose proof (Run_incoming_chans ws pm0 tr1) as (Hinc & _).
  pose proof (Run_incoming_no_targets_trace ws pm0 tr1 eq_refl) as Htr.
  destruct (Run_incoming ws pm0 tr1) as [pm2 tr2] eqn:Hrun.
  cbn [fst snd] in *.
  exists pm1, tr1, pm2, tr2. split; [done|]. split; [done|].
  split; [done|]. split; [done|].
  intros k Hk. rewrite <- Hcids in Hk.
  apply list_elem_of_fmap in Hk as (e & -> & He).
  split; [by apply Hlist|].
  intros p mq Hp. destruct (Hpeers p mq Hp) as (mq' & Hp' & Hact & _).
  exists mq'. split; [done|]. by apply Hact.
Qed.

(** ** The mirrors cover the process-wide list *)

Lemma wl_ok_refcnt_nonneg (w : Wantlist) (c : Cid) : wl_ok w -> 0 <= wl_refcnt w c.
Proof.
  intros Hok. unfold wl_refcnt. destruct (w !! c) as [e|] eqn:Hw; [|lia].
  destruct (Hok _ _ Hw). lia.
Qed.

Lemma wl_AddEntry_refcnt (e : Entry) (w : Wantlist) (c : Cid) :
  wl_ok w -> RefCnt e = 1 ->
  wl_ok (wl_AddEntry e w).1
  /\ wl_refcnt (wl_AddEntry e w).1 c
     = wl_refcnt w c + (if decide (e_Cid e = c) then 1 else 0).
Proof.
  intros Hok He. unfold wl_AddEntry, wl_refcnt.
  destruct (w !! e_Cid e) as [ex|] eqn:Hw; simpl.
  - destruct (Hok _ _ Hw) as [Hcid Hpos].
    split; [apply map_Forall_insert_2; [simpl; split; [done|lia]|done]|].
    destruct (decide (e_Cid e = c)) as [<-|Hne].
    + by rewrite lookup_insert_eq, Hw.
    + rewrite lookup_insert_ne by done. lia.
  - split; [apply map_Forall_insert_2; [simpl; split; [done|lia]|done]|].
    destruct (decide (e_Cid e = c)) as [<-|Hne].
    + rewrite lookup_insert_eq, Hw. lia.
    + rewrite lookup_insert_ne by done. lia.
Qed.

Lemma wl_Remove_refcnt (k : Cid) (w : Wantlist) (c : Cid) :
  wl_ok w ->
  wl_ok (wl_Remove k w).1
  /\ wl_refcnt (wl_Remove k w).1 c
     = if decide (k = c) then Z.max (wl_refcnt w c - 1) 0 else wl_refcnt w c.
Proof.
  intros Hok. unfold wl_Remove, wl_refcnt.
  destruct (w !! k) as [ex|] eqn:Hw; simpl.
  - destruct (Hok _ _ Hw) as [Hcid Hpos].
    destruct (RefCnt ex - 1 <=? 0) eqn:Hz; simpl.
    + apply Z.leb_le in Hz. split; [by apply map_Forall_delete|].
      destruct (decide (k = c)) as [<-|Hne].
      * rewrite lookup_delete_eq, Hw. lia.
      * by rewrite lookup_delete_ne.
    + apply Z.leb_gt in Hz.
      split; [apply map_Forall_insert_2; [simpl; split; [done|lia]|done]|].
      destruct (decide (k = c)) as [<-|Hne].
      * rewrite lookup_insert_eq, Hw. simpl. lia.
      * by rewrite lookup_insert_ne.
  - split; [done|]. destruct (decide (k = c)) as [<-|Hne]; [|done].
    rewrite Hw. lia.
Qed.

Lemma entry_covers (w m : Wantlist) (g : Z) (out : BitSwapMessage) (work : bool)
    (e : bsmsgEntry) :
  wl_ok w -> wl_ok m -> RefCnt (EntryOf e) = 1 ->
  mirror_covers w m ->
  wl_ok (Run_apply_entry (w, g) e).1
  /\ wl_ok (addMessage_entry (m, out, work) e).1.1
  /\ mirror_covers (Run_apply_entry (w, g) e).1 (addMessage_entry (m, out, work) e).1.1
  /\ (Cancel e = false ->
      forall c, wl_refcnt m c <= wl_refcnt (addMessage_entry (m, out, work) e).1.1 c).
Proof.
  intros Hw Hm He Hcov. unfold Run_apply_entry, addMessage_entry, wl_Add.
  destruct (Cancel e).
  - pose proof (fun c => wl_Remove_refcnt (e_Cid (EntryOf e)) w c Hw) as Hrw.
    pose proof (fun c => wl_Remove_refcnt (e_Cid (EntryOf e)) m c Hm) as Hrm.
    destruct (wl_Remove (e_Cid (EntryOf e)) w) as [w' bw].
    destruct (wl_Remove (e_Cid (EntryOf e)) m) as [m' bm]. simpl in *.
    split; [by destruct (Hrw "")|].
    split; [destruct bm; simpl; by destruct (Hrm "")|].
    split; [|done].
    intros c. destruct (Hrw c) as [_ ->]. specialize (Hcov c).
    destruct bm; simpl; destruct (Hrm c) as [_ ->];
      destruct (decide (e_Cid (EntryOf e) = c)); lia.
  - pose proof (fun c => wl_AddEntry_refcnt (EntryOf e) w c Hw He) as Hrw.
    pose proof (fun c => wl_AddEntry_refcnt
                           (mkEntry (e_Cid (EntryOf e)) (Priority (EntryOf e)) 1) m c
                           Hm eq_refl) as Hrm.
    simpl in Hrm.
    destruct (wl_AddEntry (EntryOf e) w) as [w' bw].
    destruct (wl_AddEntry (mkEntry (e_Cid (EntryOf e)) (Priority (EntryOf e)) 1) m)
      as [m' bm]. simpl in *.
    split; [by destruct (Hrw "")|].
    split; [destruct bm; simpl; by destruct (Hrm "")|].
    split.
    + intros c. destruct (Hrw c) as [_ ->]. specialize (Hcov c).
      destruct bm; simpl; destruct (Hrm c) as [_ ->];
        destruct (decide (e_Cid (EntryOf e) = c)); lia.
    + intros _ c. destruct bm; simpl; destruct (Hrm c) as [_ ->];
        destruct (decide (e_Cid (EntryOf e) = c)); lia.
Qed.

Lemma batch_covers (es : list bsmsgEntry) :
  forall (w m : Wantlist) (g : Z) (out : BitSwapMessage) (work : bool),
    wl_ok w -> wl_ok m ->
    Forall (fun e => RefCnt (EntryOf e) = 1) es ->
    mirror_covers w m ->
    mirror_covers (foldl Run_apply_entry (w, g) es).1
                  (foldl addMessage_entry (m, out, work) es).1.1.
Proof.
  induction es as [|e es IH]; intros w m g out work Hw Hm Hes Hcov; cbn [foldl]; [done|].
  apply Forall_cons in Hes as [He Hes].
  destruct (entry_covers w m g out work e Hw Hm He Hcov) as (Hw1 & Hm1 & Hcov1 & _).
  destruct (Run_apply_entry (w, g) e) as [w1 g1].
  destruct (addMessage_entry (m, out, work) e) as [[m1 out1] work1].
  by apply IH.
Qed.

Lemma wants_grow_mirror (es : list bsmsgEntry) :
  forall (m : Wantlist) (out : BitSwapMessage) (work : bool),
    wl_ok m ->
    Forall (fun e => Cancel e = false) es ->
    forall c, wl_refcnt m c <= wl_refcnt (foldl addMessage_entry (m, out, work) es).1.1 c.
Proof.
  induction es as [|e es IH]; intros m out work Hm Hes c; cbn [foldl]; [simpl; lia|].
  apply Forall_cons in Hes as [He Hes].
  pose proof (addMessage_want_active (m, out, work) e He Hm) as (Hm1 & _ & _).
  assert (Hstep : wl_refcnt m c <= wl_refcnt (addMessage_entry (m, out, work) e).1.1 c).
  { unfold addMessage_entry, wl_Add. rewrite He.
    pose proof (wl_AddEntry_refcnt
                  (mkEntry (e_Cid (EntryOf e)) (Priority (EntryOf e)) 1) m c Hm eq_refl)
      as [_ Hr]. simpl in Hr.
    destruct (wl_AddEntry _ m) as [m' []]; simpl in *; rewrite Hr;
      destruct (decide (e_Cid (EntryOf e) = c)); lia. }
  destruct (addMessage_entry (m, out, work) e) as [[m1 out1] work1]. simpl in *.
  specialize (IH m1 out1 work1 Hm1 Hes c). lia.
Qed.

Lemma exec_sync_inv (a : Action) (s s' : WantManager * Trace) :
  gauge_inv s.1 ->
  peers_inv s.1 ->
  sync_inv s.1 ->
  exec a s = Returned s' ->
  sync_inv s'.1.
Proof.
  destruct s as [pm tr]. cbn [fst]. intros (Hwl & _ & Hbatch) [Hq _] [Hts Hcov] Hex.
  destruct a; simpl in Hex.
  - unfold WantBlocks, addEntries in Hex.
    destruct c;
      [destruct (length (incoming pm) <? chan_cap)%nat
      |destruct (ctx_done pm)|destruct (ctx_Done ctx)];
      simpl in Hex; simplify_eq; simpl; try done.
    split; [|done]. simpl. apply Forall_app. split; [done|]. by repeat constructor.
  - unfold CancelWants, addEntries in Hex.
    destruct c;
      [destruct (length (incoming pm) <? chan_cap)%nat
      |destruct (ctx_done pm)|];
      simpl in Hex; simplify_eq; simpl; try done.
    split; [|done]. simpl. apply Forall_app. split; [done|]. by repeat constructor.
  - unfold Connected in Hex.
    destruct c;
      [destruct (length (connect pm) <? chan_cap)%nat|destruct (ctx_done pm)];
      simpl in Hex; simplify_eq; simpl; done.
  - unfold Disconnected in Hex.
    destruct c;
      [destruct (length (disconnect pm) <? chan_cap)%nat|destruct (ctx_done pm)];
      simpl in Hex; simplify_eq; simpl; done.
  - unfold ConnectedPeers in Hex.
    destruct (run_returned pm); simpl in Hex; simplify_eq; simpl; done.
  - by simplify_eq.
  - by simplify_eq.
  - unfold Run_iter in Hex. destruct (run_returned pm); [discriminate|].
    destruct c.
    + destruct (incoming pm) as [|ws rest] eqn:Hin; simplify_eq.
      apply Forall_cons in Hts as [Hws Hrest].
      apply Forall_cons in Hbatch as [Hbws _].
      unfold Run_incoming, Run_broadcast. rewrite Hws. cbn [length Nat.eqb fst snd].
      split; [done|]. simpl.
      intros p mq' Hp'. rewrite lookup_fmap in Hp'.
      destruct (peers pm !! p) as [mq|] eqn:Hp; [|done].
      simpl in Hp'. injection Hp' as <-.
      destruct (Hq _ _ Hp) as (_ & _ & Hm & _).
      pose proof (batch_covers (entries ws) (wl pm) (mq_wl mq) (wantlistGauge pm)
                    (match mq_out mq with None => msg_New false | Some m => m end) false
                    Hwl Hm Hbws (Hcov _ _ Hp)) as Hc.
      unfold addMessage.
      destruct (foldl addMessage_entry _ (entries ws)) as [[w out] work]. exact Hc.
    + simplify_eq. split; [done|]. simpl.
      intros p mq' Hp'. rewrite lookup_fmap in Hp'.
      destruct (peers pm !! p) as [mq|] eqn:Hp; [|done].
      simpl in Hp'. injection Hp' as <-.
      destruct (Hq _ _ Hp) as (_ & _ & Hm & _).
      assert (Hes : Forall (fun e => Cancel e = false)
                      (map (mkMsgEntry false) (wl_Entries (wl pm)))).
      { apply Forall_forall. intros e He.
        by apply list_elem_of_fmap in He as (e0 & -> & _). }
      pose proof (wants_grow_mirror _ (mq_wl mq) (msg_New true) false Hm Hes) as Hgrow.
      unfold addMessage. simpl.
      destruct (foldl addMessage_entry _ _) as [[w out] work]. simpl in *.
      intros c. specialize (Hgrow c). specialize (Hcov _ _ Hp c). simpl in Hcov. lia.
    + destruct (connect pm) as [|p rest]; simplify_eq.
      unfold startPeerHandler. simpl.
      destruct (peers pm !! p) as [mq|] eqn:Hp; simpl.
      * split; [done|]. apply map_Forall_insert_2; [|done]. exact (Hcov _ _ Hp).
      * rewrite (startPeerHandler_seed (wl pm) (wl_ok_keys _ Hwl)). simpl.
        split; [done|]. apply map_Forall_insert_2; [|done]. simpl. intros c. lia.
    + destruct (disconnect pm) as [|p rest]; simplify_eq.
      unfold stopPeerHandler. simpl.
      destruct (peers pm !! p) as [mq|] eqn:Hp; simpl; [|done].
      destruct (0 <? _); simpl.
      * split; [done|]. apply map_Forall_insert_2; [|done]. exact (Hcov _ _ Hp).
      * split; [done|]. by apply map_Forall_delete.
    + by simplify_eq.
    + destruct (ctx_done pm); simplify_eq. simpl. done.
  - destruct (peers pm !! p) as [mq|] eqn:Hp; [|discriminate].
    destruct (runQueue_iter fuel (ctx_done pm) c mq tr) as [[mq' tr1]| | |] eqn:Hrun;
      simpl in Hex; simplify_eq.
    apply runQueue_iter_frame in Hrun as (_ & H2 & _).
    split; [done|]. simpl. apply map_Forall_insert_2; [|done].
    rewrite H2. exact (Hcov _ _ Hp).
  - destruct (retired pm !! i) as [mq|] eqn:Hi; [|discriminate].
    destruct (runQueue_iter fuel (ctx_done pm) c mq tr) as [[mq' tr1]| | |] eqn:Hrun;
      simpl in Hex; simplify_eq.
    simpl. done.
Qed.

Lemma reachable_sync_inv (s : WantManager * Trace) : reachable s -> sync_inv s.1.
Proof.
  intros [acts Hacts].
  assert (Hgen : forall acts s0 s1,
             gauge_inv s0.1 -> peers_inv s0.1 -> sync_inv s0.1 ->
             execs acts s0 = Returned s1 ->
             sync_inv s1.1).
  { clear. intros acts. induction acts as [|a acts IH]; intros s0 s1 Hg Hp Hs Hex;
      cbn [execs] in Hex.
    - by simplify_eq.
    - destruct (exec a s0) as [s0'| | |] eqn:Ha; cbn [bind] in Hex; try discriminate.
      eapply IH; [| | |exact Hex].
      + eapply exec_gauge_inv; eauto.
      + eapply exec_peers_inv; eauto.
      + eapply exec_sync_inv; eauto. }
  eapply Hgen; [| | |exact Hacts].
  - apply (reachable_gauge_inv (NewWantManager, [])). by exists [].
  - apply (reachable_peers_inv (NewWantManager, [])). by exists [].
  - split; [constructor|apply map_Forall_empty].
Qed.

(** X16. In every state the system can reach, the mirror of every
    registered peer holds every id of the process-wide list, so that the
    timer of [Run] leaves every peer an empty full message and no new work
    signal: the periodic rebroadcast never puts a want into a message. *)
Theorem rebroadcast_never_sends
    (s : WantManager * Trace) (Hreach : reachable s) :
  forall p mq,
    peers s.1 !! p = Some mq ->
    (forall c, is_Some (wl s.1 !! c) -> is_Some (mq_wl mq !! c))
    /\ exists mq',
         peers (Run_tick s.1) !! p = Some mq'
         /\ mq_out mq' = Some (msg_New true)
         /\ mq_work mq' = mq_work mq.
Proof.
  destruct (reachable_gauge_inv s Hreach) as (Hwl & _ & _).
  destruct (reachable_sync_inv s Hreach) as [_ Hcov].
  intros p mq Hp.
  assert (Hpos : forall c e, wl s.1 !! c = Some e -> 0 < wl_refcnt (mq_wl mq) c).
  { intros c e Hc. specialize (Hcov _ _ Hp c). simpl in Hcov.
    unfold wl_refcnt in Hcov at 1. rewrite Hc in Hcov. destruct (Hwl _ _ Hc). lia. }
  split.
  - intros c [e Hc]. specialize (Hpos c e Hc). unfold wl_refcnt in Hpos.
    destruct (mq_wl mq !! c); [eauto|lia].
  - unfold Run_tick. simpl. rewrite lookup_fmap, Hp. simpl.
    eexists. split; [reflexivity|]. unfold addMessage. simpl.
    destruct (addMessage_known (map (mkMsgEntry false) (wl_Entries (wl s.1)))
                (mq_wl mq) (msg_New true) false) as (w' & Hrun & _).
    { apply Forall_forall. intros e He.
      apply list_elem_of_fmap in He as (e0 & -> & He0). simpl. split; [reflexivity|].
      unfold wl_Entries in He0. apply list_elem_of_fmap in He0 as ([k e1] & -> & Hin).
      apply elem_of_map_to_list in Hin. simpl.
      destruct (Hwl _ _ Hin) as [Hk _]. simpl in Hk. rewrite Hk. by eapply Hpos. }
    rewrite Hrun. done.
Qed.

End Bitswap.

(** * The statements at sample inputs *)



(** C2 at a peer that connected after a want and has flushed its first
    message: the timer leaves it an empty message and no work signal, and
    nothing is sent. *)
Lemma Run_tick_sends_nothing_known_witness :
  let s := state_after keepFirst 2147483647 okEnv
             [AWantBlocks Background ["A"] SendIncoming; ARun RIncoming;
              AConnected "P" SendNotify; ARun RConnect; APipeline "P" QWork 1] in
  let mq := default (newMsgQueue "P") (peers s.1 !! "P") in
  wl_Entries (wl s.1) = [mkEntry "A" 2147483647 1]
  /\ sent_msgs s.2 = [mkMessage true {["A" := OpWant 2147483647]} []]
  /\ exists mq',
       peers (Run_tick keepFirst s.1) !! ("P" : peerID) = Some mq'
       /\ mq_out mq' = Some (msg_New true)
       /\ mq_work mq' = false
       /\ wl_refcnt (mq_wl mq') "A" = 2
       /\ runQueue_iter okEnv 1 false QWork mq' s.2 = Blocked
       /\ (forall fuel tr, exists mq2 tr2,
              doWork okEnv fuel mq' tr = Returned (mq2, tr2)
              /\ sent_msgs tr2 = sent_msgs tr).
Proof.
  intros s mq.
  assert (Hp : peers s.1 !! ("P" : peerID) = Some mq) by (vm_compute; reflexivity).
  split; [vm_compute; reflexivity|]. split; [vm_compute; reflexivity|].
  destruct (Run_tick_sends_nothing_known keepFirst okEnv s.1 "P" mq Hp)
    as (mq' & Hp' & Hout & Hwork & _ & Hsend).
  - unfold wl_keys. apply (bool_decide_unpack _). vm_compute. exact I.
  - apply (bool_decide_unpack _). vm_compute. exact I.
  - exists mq'. split; [exact Hp'|]. split; [exact Hout|].
    split; [rewrite Hwork; vm_compute; reflexivity|].
    assert (Hmq' : Some mq' = peers (Run_tick keepFirst s.1) !! ("P" : peerID)) by done.
    vm_compute in Hmq'. injection Hmq' as ->.
    split; [vm_compute; reflexivity|]. split; [vm_compute; reflexivity|exact Hsend].
Defined.

(** C3 at a coordinator with two wants and the peer P registered: a second
    connect event for P, and a first one for Q. *)
Lemma startPeerHandler_connect_witness :
  let s := state_after keepFirst 2147483647 okEnv
             [AWantBlocks Background ["A"; "B"] SendIncoming; ARun RIncoming;
              AConnected "P" SendNotify; ARun RConnect] in
  let mq := default (newMsgQueue "P") (peers s.1 !! "P") in
  (peers s.1 !! ("P" : peerID) = Some mq
   /\ mq_refcnt mq = 1
   /\ startPeerHandler keepFirst "P" s.1 s.2
      = (set_peers (<["P" := set_refcnt (mq_refcnt mq + 1) mq]> (peers s.1)) s.1, s.2))
  /\ startPeerHandler keepFirst "Q" s.1 s.2
     = (set_peers
          (<["Q" := mkMsgQueue "Q"
                      (Some (mkMessage true ((fun e => OpWant (Priority e)) <$> wl s.1) []))
                      (wl s.1) None 1 true false false]> (peers s.1)) s.1,
        GoRunQueue "Q" :: s.2).
Proof.
  intros s mq.
  assert (Hkeys : wl_keys (wl s.1)).
  { unfold wl_keys. apply (bool_decide_unpack _). vm_compute. exact I. }
  assert (Hp : peers s.1 !! ("P" : peerID) = Some mq) by (vm_compute; reflexivity).
  assert (Hq : peers s.1 !! ("Q" : peerID) = None) by (vm_compute; reflexivity).
  split.
  - split; [exact Hp|]. split; [vm_compute; reflexivity|].
    pose proof (startPeerHandler_connect keepFirst "P" s.1 s.2 Hkeys) as H.
    rewrite Hp in H. apply H.
    intros mq0 [= <-]. vm_compute. split; discriminate.
  - pose proof (startPeerHandler_connect keepFirst "Q" s.1 s.2 Hkeys) as H.
    rewrite Hq in H. apply H. intros mq0 Hmq0. discriminate.
Defined.

(** C4 as stated fails: a disconnect event for a peer that is not registered
    writes nothing to the log. *)
Lemma disconnect_unregistered_not_logged :
  let pm := set_disconnect ["P"] NewWantManager in
  peers pm !! ("P" : peerID) = None
  /\ Run_iter keepFirst RDisconnect pm [] = Returned (NewWantManager, [])
  /\ ~ (exists pm' tr' lvl text,
           Run_iter keepFirst RDisconnect pm [] = Returned (pm', tr')
           /\ Log lvl text ∈ tr').
Proof.
  intros pm. split; [reflexivity|]. split; [reflexivity|].
  intros (pm' & tr' & lvl & text & Hrun & Hlog).
  vm_compute in Hrun. injection Hrun as <- <-.
  by apply not_elem_of_nil in Hlog.
Qed.

(** C4, as the code has it, at a peer P registered by two connect events
    and a peer Q that is not registered. *)
Lemma stopPeerHandler_disconnect_witness :
  let s := state_after keepFirst 2147483647 okEnv
             [AWantBlocks Background ["A"] SendIncoming; ARun RIncoming;
              AConnected "P" SendNotify; ARun RConnect;
              AConnected "P" SendNotify; ARun RConnect] in
  let mq := default (newMsgQueue "P") (peers s.1 !! "P") in
  (peers s.1 !! ("P" : peerID) = Some mq
   /\ mq_refcnt mq = 2
   /\ stopPeerHandler "P" s.1 s.2
      = (set_peers (<["P" := set_refcnt (mq_refcnt mq - 1) mq]> (peers s.1)) s.1, s.2))
  /\ stopPeerHandler "Q" s.1 s.2 = (s.1, s.2).
Proof.
  intros s mq.
  assert (Hkeys : wl_keys (wl s.1)).
  { unfold wl_keys. apply (bool_decide_unpack _). vm_compute. exact I. }
  assert (Hp : peers s.1 !! ("P" : peerID) = Some mq) by (vm_compute; reflexivity).
  assert (Hq : peers s.1 !! ("Q" : peerID) = None) by (vm_compute; reflexivity).
  assert (Hrc : mq_refcnt mq = 2) by (vm_compute; reflexivity).
  split.
  - split; [exact Hp|]. split; [exact Hrc|].
    destruct (stopPeerHandler_disconnect keepFirst "P" "Q" s.1 s.2) as [H _].
    + intros mq0 Hmq0. rewrite Hp in Hmq0. injection Hmq0 as <-. rewrite Hrc.
      unfold int_max. simpl. lia.
    + exact Hkeys.
    + exact Hq.
    + rewrite Hp in H. destruct (decide (mq_refcnt mq = 1)) as [H1|_]; [|exact H].
      rewrite Hrc in H1. discriminate.
  - destruct (stopPeerHandler_disconnect keepFirst "Q" "Q" s.1 s.2) as [H _].
    + intros mq0 Hmq0. rewrite Hq in Hmq0. discriminate.
    + exact Hkeys.
    + exact Hq.
    + rewrite Hq in H. exact H.
Defined.

(** C6 after two wants, one of them wanted twice, the other cancelled. *)
Lemma wantlistGauge_counts_active_ids_witness :
  let s := state_after keepFirst 2147483647 okEnv
             [AWantBlocks Background ["A"; "B"] SendIncoming; ARun RIncoming;
              AWantBlocks Background ["A"] SendIncoming; ARun RIncoming;
              ACancelWants ["B"] SendIncoming; ARun RIncoming] in
  wantlistGauge s.1 = Z.of_nat (size (wl s.1))
  /\ wantlistGauge s.1 = 1
  /\ wl_refcnt (wl s.1) "A" = 2.
Proof.
  intros s.
  assert (Hreach : reachable keepFirst 2147483647 okEnv s).
  { exists [AWantBlocks Background ["A"; "B"] SendIncoming; ARun RIncoming;
            AWantBlocks Background ["A"] SendIncoming; ARun RIncoming;
            ACancelWants ["B"] SendIncoming; ARun RIncoming].
    vm_compute. reflexivity. }
  split; [|split].
  - exact (proj1 (wantlistGauge_counts_active_ids keepFirst 2147483647 okEnv s Hreach)).
  - vm_compute. reflexivity.
  - vm_compute. reflexivity.
Defined.

(** C8 at three wants handed to a new coordinator. *)
Lemma addEntries_priorities_decrease_witness :
  exists ws,
    incoming (set_incoming
                [mkWantSet (addEntries_loop 2147483647 false 0 ["A"; "B"; "C"]) []]
                NewWantManager)
    = incoming NewWantManager ++ [ws]
    /\ map (fun e => e_Cid (EntryOf e)) (entries ws) = ["A"; "B"; "C"]
    /\ (forall e, entries ws !! 0%nat = Some e -> Priority (EntryOf e) = 2147483647)
    /\ (forall (i j : nat) (ei ej : bsmsgEntry),
          entries ws !! i = Some ei ->
          entries ws !! j = Some ej ->
          (i < j)%nat ->
          Priority (EntryOf ej) < Priority (EntryOf ei)).
Proof.
  apply (addEntries_priorities_decrease 2147483647 Background ["A"; "B"; "C"] false
           NewWantManager).
  - unfold int_max. lia.
  - unfold int_max. simpl. lia.
  - reflexivity.
Defined.

(** C9 after [pm.ctx] is cancelled and [Run] has returned. *)
Lemma ConnectedPeers_blocks_after_shutdown_witness :
  let s := state_after keepFirst 2147483647 okEnv [ACancelCtx; ARun RCtxDone] in
  Connected "P" NotifyPmDone s.1 = Returned s.1
  /\ ConnectedPeers s.1 s.2 = Blocked.
Proof.
  pose proof (ConnectedPeers_blocks_after_shutdown keepFirst 2147483647 okEnv
                (state_after keepFirst 2147483647 okEnv [ACancelCtx; ARun RCtxDone]).1
                (state_after keepFirst 2147483647 okEnv [ACancelCtx; ARun RCtxDone]).2
                eq_refl eq_refl) as (_ & _ & Hc & _ & Hp & _).
  split; [exact (Hc "P")|exact Hp].
Defined.

(** * Further statements at sample inputs *)

(** X2 on the network where no sender can be opened. *)
Lemma runQueue_open_failure_keeps_message_witness :
  let wlm := msg_AddEntry "A" 7 (msg_New false) in
  let mq := mkMsgQueue "P" (Some wlm) ∅ None 1 true false false in
  exists tr',
    runQueue_iter deadEnv 1 false QWork mq [] = Returned (set_work false mq, tr')
    /\ sent_msgs tr' = sent_msgs []
    /\ runQueue_iter deadEnv 1 false QWork (set_work false mq) tr' = Blocked.
Proof.
  intros wlm mq.
  destruct (runQueue_open_failure_keeps_message deadEnv 1 false mq [])
    as (tr' & Hrun & _ & Hsent & Hblocked).
  - reflexivity.
  - reflexivity.
  - reflexivity.
  - left. vm_compute. eauto.
  - exists tr'. split; [exact Hrun|]. split; [exact Hsent|]. apply Hblocked.
Defined.

(** X3 at a queue whose [done] channel is closed while a message is
    pending and a sender is open. *)
Lemma runQueue_exit_closes_sender_witness :
  let wlm := msg_AddEntry "A" 7 (msg_New false) in
  let mq := mkMsgQueue "P" (Some wlm) ∅ (Some 4%nat) 0 true true false in
  runQueue_iter okEnv 1 false QDone mq [] = Returned (set_exited true mq, [NetClose 4])
  /\ runQueue_iter okEnv 1 true QWork (addMessage keepFirst [] (set_exited true mq)) []
     = Blocked.
Proof.
  intros wlm mq.
  destruct (runQueue_exit_closes_sender keepFirst okEnv 1 false QDone mq [])
    as [Hrun Hblocked].
  - reflexivity.
  - left. split; reflexivity.
  - split; [exact Hrun|apply Hblocked].
Defined.

(** X4 at three connect events on a new coordinator. *)
Lemma connects_disconnects_balance_witness :
  let s := connects keepFirst "P" 3 (NewWantManager, []) in
  s.2 = [GoRunQueue "P"]
  /\ (exists mq, peers (disconnects "P" 2 s).1 !! ("P" : peerID) = Some mq
                 /\ mq_refcnt mq = 1 /\ mq_done mq = false)
  /\ peers (disconnects "P" 3 s).1 = peers NewWantManager.
Proof.
  intros s.
  destruct (connects_disconnects_balance keepFirst "P" 3 NewWantManager [])
    as (Htr & Hless & Hpeers & _).
  - reflexivity.
  - lia.
  - unfold int_max. simpl. lia.
  - split; [exact Htr|]. split; [|exact Hpeers].
    destruct (Hless 2%nat ltac:(lia)) as (mq & Hp & Hrc & Hd & _).
    exists mq. split; [exact Hp|]. split; [exact Hrc|exact Hd].
Defined.

(** X6 after shutdown: a want and a connect notification handed over
    afterwards stay in their channels. *)
Lemma nothing_applied_after_Run_returns_witness :
  let s := state_after keepFirst 2147483647 okEnv
             [AWantBlocks Background ["A"] SendIncoming; ARun RIncoming;
              ACancelCtx; ARun RCtxDone] in
  let s' := state_after keepFirst 2147483647 okEnv
              [AWantBlocks Background ["A"] SendIncoming; ARun RIncoming;
               ACancelCtx; ARun RCtxDone;
               AWantBlocks Background ["B"] SendIncoming; AConnected "P" SendNotify] in
  run_returned s'.1 = true /\ frozen s.1 s'.1 /\ length (incoming s'.1) = 1%nat.
Proof.
  intros s s'.
  destruct (nothing_applied_after_Run_returns keepFirst 2147483647 okEnv
              [AWantBlocks Background ["B"] SendIncoming; AConnected "P" SendNotify]
              s.1 s'.1 s.2 s'.2) as [Hret Hfrozen].
  - vm_compute. reflexivity.
  - vm_compute. reflexivity.
  - split; [exact Hret|]. split; [exact Hfrozen|]. vm_compute. reflexivity.
Defined.

(** X7 after three wants were handed over and none was taken. *)
Lemma channels_stay_within_capacity_witness :
  let s := state_after keepFirst 2147483647 okEnv
             [AWantBlocks Background ["A"] SendIncoming;
              AWantBlocks Background ["B"] SendIncoming;
              ACancelWants ["A"] SendIncoming; AConnected "P" SendNotify] in
  (length (incoming s.1) <= 10)%nat
  /\ (length (connect s.1) <= 10)%nat
  /\ (length (disconnect s.1) <= 10)%nat.
Proof.
  intros s.
  apply (channels_stay_within_capacity keepFirst 2147483647 okEnv s).
  exists [AWantBlocks Background ["A"] SendIncoming;
          AWantBlocks Background ["B"] SendIncoming;
          ACancelWants ["A"] SendIncoming; AConnected "P" SendNotify].
  vm_compute. reflexivity.
Defined.

(** X8 after a peer was registered twice and torn down, and another
    registered. *)
Lemma registered_queues_are_open_witness :
  let s := state_after keepFirst 2147483647 okEnv
             [AConnected "P" SendNotify; ARun RConnect;
              ADisconnected "P" SendNotify; ARun RDisconnect;
              AConnected "Q" SendNotify; ARun RConnect] in
  (forall p mq, peers s.1 !! p = Some mq -> mq_p mq = p /\ mq_done mq = false)
  /\ (forall mq, mq ∈ retired s.1 -> mq_done mq = true)
  /\ length (retired s.1) = 1%nat.
Proof.
  intros s.
  destruct (registered_queues_are_open keepFirst 2147483647 okEnv s) as [H1 H2].
  - exists [AConnected "P" SendNotify; ARun RConnect;
            ADisconnected "P" SendNotify; ARun RDisconnect;
            AConnected "Q" SendNotify; ARun RConnect].
    vm_compute. reflexivity.
  - split; [exact H1|]. split; [exact H2|]. vm_compute. reflexivity.
Defined.

(** X9 after a want and its cancel were merged into the pending message of
    a registered peer. *)
Lemma pending_message_agrees_with_mirror_witness :
  let s := state_after keepFirst 2147483647 okEnv
             [AConnected "P" SendNotify; ARun RConnect;
              AWantBlocks Background ["A"; "B"] SendIncoming; ARun RIncoming;
              ACancelWants ["A"] SendIncoming; ARun RIncoming] in
  let mq := default (newMsgQueue "P") (peers s.1 !! "P") in
  peers s.1 !! ("P" : peerID) = Some mq
  /\ out_entries mq !! ("A" : Cid) = Some OpCancel
  /\ mq_wl mq !! ("A" : Cid) = None
  /\ is_Some (mq_wl mq !! ("B" : Cid)).
Proof.
  intros s mq.
  assert (Hp : peers s.1 !! ("P" : peerID) = Some mq) by (vm_compute; reflexivity).
  assert (Ha : out_entries mq !! ("A" : Cid) = Some OpCancel) by (vm_compute; reflexivity).
  assert (Hb : out_entries mq !! ("B" : Cid) = Some (OpWant 2147483646))
    by (vm_compute; reflexivity).
  destruct (pending_message_agrees_with_mirror keepFirst 2147483647 okEnv s) with
    (p := ("P" : peerID)) (mq := mq) as (_ & Hcancel & Hwant).
  - exists [AConnected "P" SendNotify; ARun RConnect;
            AWantBlocks Background ["A"; "B"] SendIncoming; ARun RIncoming;
            ACancelWants ["A"] SendIncoming; ARun RIncoming].
    vm_compute. reflexivity.
  - exact Hp.
  - split; [exact Hp|]. split; [exact Ha|]. split; [exact (Hcancel _ Ha)|].
    exact (Hwant _ _ Hb).
Defined.

(** X10 at a batch of two wants, one of them new to the registered peer. *)
Lemma Run_incoming_broadcast_reaches_all_witness :
  let pm := (state_after keepFirst 2147483647 okEnv
               [AWantBlocks Background ["A"] SendIncoming; ARun RIncoming;
                AConnected "P" SendNotify; ARun RConnect]).1 in
  let ws := mkWantSet (addEntries_loop 2147483647 false 0 ["A"; "B"]) [] in
  let pm' := (Run_incoming keepFirst ws pm []).1 in
  let mq := default (newMsgQueue "P") (peers pm !! "P") in
  0 < wl_refcnt (wl pm') "B"
  /\ exists mq',
       peers pm' !! ("P" : peerID) = Some mq'
       /\ 0 < wl_refcnt (mq_wl mq') "B"
       /\ (exists pr, out_entries mq' !! ("B" : Cid) = Some (OpWant pr))
       /\ mq_work mq' = true.
Proof.
  intros pm ws pm' mq.
  set (e := mkMsgEntry false (mkEntry "B" 2147483646 1)).
  assert (He : e ∈ entries ws).
  { apply (list_elem_of_lookup_2 _ 1%nat). vm_compute. reflexivity. }
  assert (Hp : peers pm !! ("P" : peerID) = Some mq) by (vm_compute; reflexivity).
  destruct (Run_incoming_broadcast_reaches_all keepFirst ws pm [])
    as (Hlist & Hpeers & _).
  - reflexivity.
  - unfold ws. simpl. repeat constructor.
  - unfold wl_ok. apply (bool_decide_unpack _). vm_compute. exact I.
  - unfold wl_ok. apply (bool_decide_unpack _). vm_compute. exact I.
  - split; [exact (Hlist e He)|].
    destruct (Hpeers "P" mq Hp) as (mq' & Hp' & Hact & Hnew).
    exists mq'. split; [exact Hp'|]. split; [exact (Hact e He)|].
    apply (Hnew e He). vm_compute. reflexivity.
Defined.

(** X11 at a peer whose mirror holds A while the process-wide list holds A
    and B, with a cancel pending. *)
Lemma Run_tick_pending_is_what_mirror_lacks_witness :
  let w : Wantlist := <["A" := mkEntry "A" 5 1]> (<["B" := mkEntry "B" 4 1]> ∅) in
  let mq := mkMsgQueue "P" (Some (msg_Cancel "C" (msg_New false)))
              (<["A" := mkEntry "A" 5 1]> ∅) None 1 true false false in
  let pm := mkWantManager [] [] [] {["P" := mq]} w false 2 false [] in
  exists mq' out,
    peers (Run_tick keepFirst pm) !! ("P" : peerID) = Some mq'
    /\ mq_out mq' = Some out
    /\ Full out = true
    /\ m_wantlist out !! ("B" : Cid) = Some (OpWant 4)
    /\ m_wantlist out !! ("A" : Cid) = None
    /\ m_wantlist out !! ("C" : Cid) = None.
Proof.
  intros w mq pm.
  destruct (Run_tick_pending_is_what_mirror_lacks keepFirst pm "P" mq)
    as (mq' & out & Hp' & Hout & Hfull & _ & Hiff).
  - reflexivity.
  - unfold wl_keys. apply (bool_decide_unpack _). vm_compute. exact I.
  - unfold wl_ok. apply (bool_decide_unpack _). vm_compute. exact I.
  - exists mq', out. split; [exact Hp'|]. split; [exact Hout|]. split; [exact Hfull|].
    split; [|split].
    + apply Hiff. split; [vm_compute; reflexivity|].
      exists (mkEntry "B" 4 1). split; [vm_compute; reflexivity|reflexivity].
    + destruct (m_wantlist out !! ("A" : Cid)) as [op|] eqn:Ha; [|reflexivity].
      apply Hiff in Ha as [Hnone _]. vm_compute in Hnone. discriminate.
    + destruct (m_wantlist out !! ("C" : Cid)) as [op|] eqn:Hc; [|reflexivity].
      apply Hiff in Hc as (_ & e & He & _). vm_compute in He. discriminate.
Defined.

(** X13 at a cancel of an id that nobody wants. *)
Lemma Run_incoming_cancel_unknown_witness :
  let pm := (state_after keepFirst 2147483647 okEnv
               [AWantBlocks Background ["A"] SendIncoming; ARun RIncoming;
                AConnected "P" SendNotify; ARun RConnect]).1 in
  let ws := mkWantSet (addEntries_loop 2147483647 true 0 ["Z"]) [] in
  let r := Run_incoming keepFirst ws pm [] in
  let mq := default (newMsgQueue "P") (peers pm !! "P") in
  wl r.1 = wl pm
  /\ wantlistGauge r.1 = wantlistGauge pm
  /\ r.2 = []
  /\ exists mq', peers r.1 !! ("P" : peerID) = Some mq'
                 /\ out_entries mq' = out_entries mq.
Proof.
  intros pm ws r mq.
  assert (Hp : peers pm !! ("P" : peerID) = Some mq) by (vm_compute; reflexivity).
  destruct (Run_incoming_cancel_unknown keepFirst ws pm [])
    as (Hwl & Hg & Htr & Hpeers).
  - reflexivity.
  - unfold ws. simpl. constructor; [|constructor].
    split; [reflexivity|vm_compute; reflexivity].
  - split; [exact Hwl|]. split; [exact Hg|]. split; [exact Htr|].
    destruct (Hpeers "P" mq Hp) as (mq' & Hp' & _ & Hout).
    + unfold ws. simpl. constructor; [|constructor]. vm_compute. reflexivity.
    + exists mq'. split; [exact Hp'|exact Hout].
Defined.

(** X15 at two wants handed to a coordinator with one registered peer. *)
Lemma WantBlocks_then_Run_registers_wants_witness :
  let s := state_after keepFirst 2147483647 okEnv
             [AConnected "P" SendNotify; ARun RConnect] in
  exists pm1 tr1 pm2 tr2,
    WantBlocks 2147483647 Background ["A"; "B"] SendIncoming s.1 s.2 = Returned (pm1, tr1)
    /\ Run_iter keepFirst RIncoming pm1 tr1 = Returned (pm2, tr2)
    /\ incoming pm2 = []
    /\ 0 < wl_refcnt (wl pm2) "A"
    /\ exists mq', peers pm2 !! ("P" : peerID) = Some mq' /\ 0 < wl_refcnt (mq_wl mq') "A".
Proof.
  intros s.
  set (mq := default (newMsgQueue "P") (peers s.1 !! "P")).
  assert (Hp : peers s.1 !! ("P" : peerID) = Some mq) by (vm_compute; reflexivity).
  destruct (WantBlocks_then_Run_registers_wants keepFirst 2147483647 Background
              ["A"; "B"] s.1 s.2)
    as (pm1 & tr1 & pm2 & tr2 & Hsub & Hrun & Hinc & _ & Hks).
  - vm_compute. reflexivity.
  - vm_compute. reflexivity.
  - unfold wl_ok. apply (bool_decide_unpack _). vm_compute. exact I.
  - unfold wl_ok. apply (bool_decide_unpack _). vm_compute. exact I.
  - exists pm1, tr1, pm2, tr2. split; [exact Hsub|]. split; [exact Hrun|].
    split; [exact Hinc|].
    destruct (Hks "A") as [Hlist Hpeers]; [apply elem_of_cons; by left|].
    split; [exact Hlist|]. exact (Hpeers "P" mq Hp).
Defined.

(** X16 at a peer that connected before a want was made. *)
Lemma rebroadcast_never_sends_witness :
  let s := state_after keepFirst 2147483647 okEnv
             [AConnected "P" SendNotify; ARun RConnect;
              AWantBlocks Background ["A"] SendIncoming; ARun RIncoming;
              APipeline "P" QWork 1] in
  let mq := default (newMsgQueue "P") (peers s.1 !! "P") in
  is_Some (wl s.1 !! ("A" : Cid))
  /\ is_Some (mq_wl mq !! ("A" : Cid))
  /\ exists mq',
       peers (Run_tick keepFirst s.1) !! ("P" : peerID) = Some mq'
       /\ mq_out mq' = Some (msg_New true)
       /\ mq_work mq' = mq_work mq.
Proof.
  intros s mq.
  assert (Hp : peers s.1 !! ("P" : peerID) = Some mq) by (vm_compute; reflexivity).
  assert (Ha : is_Some (wl s.1 !! ("A" : Cid))) by (vm_compute; eauto).
  destruct (rebroadcast_never_sends keepFirst 2147483647 okEnv s) with
    (p := ("P" : peerID)) (mq := mq) as [Hcov Htick].
  - exists [AConnected "P" SendNotify; ARun RConnect;
            AWantBlocks Background ["A"] SendIncoming; ARun RIncoming;
            APipeline "P" QWork 1].
    vm_compute. reflexivity.
  - exact Hp.
  - split; [exact Ha|]. split; [exact (Hcov _ Ha)|exact Htick].
Defined.
